(** * Attendance service: sessions, check-ins and history

    A shallow embedding of [server.js] (Express routes over Mongoose
    models) and the proofs of its session / attendance properties.

    - Documents are records, collections are lists in insertion order
      (the natural order in which [find] and [findOne] meet documents).
    - A route is a [Handler]: a function of the world (the four
      collections and the log of emitted socket events) that either goes
      on with a value, has sent the response, or has thrown.
    - What the process takes from outside is explicit: the clock, fresh
      object ids, [uuidv4()] and the salt of bcrypt come in an [Env];
      [jsonwebtoken] and [bcryptjs] are the fields of [Externals].
    - The routes come first on typed bodies: the fields a query filters
      on (session code, e-mail) are strings, and every other field is
      either absent ([None]) or holds a value of the type the schema
      declares.  The three routes that build a document from the body
      (notes, check-in, start of a session) are then given on the body
      as it is sent, where a field may fail Mongoose's cast and the save
      is rejected; they agree with the typed routes on every body that
      passes the cast.  Storage failures are outside the model. *)

From Stdlib Require Import ZArith Floats Ascii String.
From stdpp Require Import base tactics option list gmap strings sorting.

Local Open Scope string_scope.
Local Open Scope Z_scope.

(** ** Data model (the Mongoose schemas) *)

Definition ObjectId := N.
Bind Scope N_scope with ObjectId.
(** A [Date], as milliseconds since the epoch. *)
Definition Date := Z.
(** A JavaScript number. *)
Definition Number := float.

Inductive Role := student | teacher.

Record Location := mkLocation {
  latitude : option Number;
  longitude : option Number
}.

Module User.
Record t := mk {
  _id : ObjectId;
  email : string;
  password : option string;
  role : option Role;
  name : option string;
  college : option string;
  department : option string;
  class : option string;
  rollNumber : option string;
  address : option string;
  profileImage : option string;
  idCardImage : option string;
  timetableImage : option string;
  createdAt : Date
}.
End User.

Module Session.
Record t := mk {
  _id : ObjectId;
  sessionId : string;
  teacherId : ObjectId;
  subject : option string;
  location : Location;
  startTime : Date;
  endTime : option Date;
  active : bool
}.
End Session.

Module Attendance.
Record t := mk {
  _id : ObjectId;
  sessionId : string;
  studentId : ObjectId;
  studentName : option string;
  rollNumber : option string;
  location : Location;
  timestamp : Date;
  profileImage : option string
}.
End Attendance.

Module Note.
Record t := mk {
  _id : ObjectId;
  userId : ObjectId;
  content : option string;
  createdAt : Date
}.
End Note.

(** ** Responses *)

Inductive Status := Present | Absent.

(** One element of the array sent by the history route. *)
Module HistoryEntry.
Record t := mk {
  sessionId : string;
  subject : option string;
  date : Date;
  status : Status;
  location : Location
}.
End HistoryEntry.

Inductive Exn :=
  TypeError | JsonWebTokenError | Error | BcryptError | ValidationError.

Inductive Payload :=
  | ErrorBody (error : string)
  | ExnBody (e : Exn)
  | UserToken (user : User.t) (token : string)
  | UserBody (user : User.t)
  | NoteBody (note : Note.t)
  | NotesBody (notes : list Note.t)
  | Marked (success : bool) (message sessionId : string)
           (subject : option string) (date : string)
           (attendance : Attendance.t)
  | HistoryBody (history : list HistoryEntry.t)
  | SessionBody (session : Session.t)
  | AttendanceBody (attendance : list Attendance.t)
  | TextBody (text : string).

Record Response := mkResponse { status : nat; payload : Payload }.

(** ** The world and the environment *)

(** [io.to(room).emit(event, attendance)]. *)
Record Emitted := mkEmitted {
  room : string;
  event : string;
  data : Attendance.t
}.

Record World := mkWorld {
  users : list User.t;
  sessions : list Session.t;
  attendances : list Attendance.t;
  notes : list Note.t;
  emitted : list Emitted
}.

Record Env := mkEnv {
  now : Date;
  fresh_id : ObjectId;
  uuid : string;
  salt : string
}.

(** [jsonwebtoken] and [bcryptjs], with the secret and the cost fixed. *)
Class Externals := {
  jwt_sign : ObjectId → string;
  jwt_verify : string → option ObjectId;
  bcrypt_hash : string → string → string;
  bcrypt_compare : string → string → bool
}.

Record Request (B : Type) := mkRequest {
  Authorization : option string;
  body : B
}.
Arguments mkRequest {B} _ _.
Arguments Authorization {B} _.
Arguments body {B} _.

(** ** Handlers *)

Inductive outcome (A : Type) :=
  | Next (a : A)
  | Sent (r : Response)
  | Thrown (e : Exn).
Arguments Next {A} _.
Arguments Sent {A} _.
Arguments Thrown {A} _.

Definition Handler (A : Type) : Type := World → outcome A * World.

Definition ret {A} (a : A) : Handler A := λ w, (Next a, w).

Definition bind {A B} (m : Handler A) (k : A → Handler B) : Handler B :=
  λ w, match m w with
       | (Next a, w') => k a w'
       | (Sent r, w') => (Sent r, w')
       | (Thrown e, w') => (Thrown e, w')
       end.

#[global] Instance Handler_ret : MRet Handler := @ret.
#[global] Instance Handler_bind : MBind Handler := λ A B k m, bind m k.

(** [throw e] *)
Definition throw {A} (e : Exn) : Handler A := λ w, (Thrown e, w).

(** [return res.status(code).send(body)] *)
Definition send {A} (code : nat) (p : Payload) : Handler A :=
  λ w, (Sent (mkResponse code p), w).

(** [try { m } catch (e) { h e }] *)
Definition try_catch {A} (m : Handler A) (h : Exn → Handler A) : Handler A :=
  λ w, match m w with
       | (Thrown e, w') => h e w'
       | r => r
       end.

Definition gets {A} (f : World → A) : Handler A := λ w, (Next (f w), w).
Definition modify (f : World → World) : Handler unit := λ w, (Next tt, f w).

(** ** JavaScript strings (ASCII) *)

(** [s.replace(pat, rep)] with a string pattern: the first occurrence. *)
Fixpoint replace (pat rep s : string) : string :=
  if String.prefix pat s
  then rep ++ String.substring (String.length pat)
                               (String.length s - String.length pat) s
  else match s with
       | EmptyString => EmptyString
       | String c s' => String c (replace pat rep s')
       end.

(** [s.substring(i, j)] for [i <= j]. *)
Definition substring (s : string) (i j : nat) : string :=
  String.substring i (j - i) s.

Definition upper (c : ascii) : ascii :=
  let n := N_of_ascii c in
  if ((97 <=? n) && (n <=? 122))%N then ascii_of_N (n - 32) else c.

Fixpoint toUpperCase (s : string) : string :=
  match s with
  | EmptyString => EmptyString
  | String c s' => String (upper c) (toUpperCase s')
  end.

(** [d.toISOString()]: [YYYY-MM-DDTHH:mm:ss.sssZ], the year with a sign
    and six digits outside 0..9999. *)
Definition digit (n : Z) : ascii := ascii_of_N (48 + Z.to_N (n mod 10)).

Fixpoint pad (width : nat) (n : Z) : string :=
  match width with
  | O => EmptyString
  | S w => pad w (n / 10) ++ String (digit n) EmptyString
  end.

(** Year, month and day of the day number [z] (days since 1970-01-01). *)
Definition civil (z : Z) : Z * Z * Z :=
  let z := z + 719468 in
  let era := z / 146097 in
  let doe := z - era * 146097 in
  let yoe := (doe - doe / 1460 + doe / 36524 - doe / 146096) / 365 in
  let doy := doe - (365 * yoe + yoe / 4 - yoe / 100) in
  let mp := (5 * doy + 2) / 153 in
  let d := doy - (153 * mp + 2) / 5 + 1 in
  let m := if mp <? 10 then mp + 3 else mp - 9 in
  let y := yoe + era * 400 + (if m <=? 2 then 1 else 0) in
  (y, m, d).

Definition year_string (y : Z) : string :=
  if (0 <=? y) && (y <=? 9999) then pad 4 y
  else (if y <? 0 then "-" else "+") ++ pad 6 (Z.abs y).

Definition toISOString (t : Date) : string :=
  let '(y, m, d) := civil (t / 86400000) in
  let ms := t mod 86400000 in
  year_string y ++ "-" ++ pad 2 m ++ "-" ++ pad 2 d ++ "T"
    ++ pad 2 (ms / 3600000) ++ ":" ++ pad 2 (ms / 60000 mod 60) ++ ":"
    ++ pad 2 (ms / 1000 mod 60) ++ "." ++ pad 3 (ms mod 1000) ++ "Z".

(** ** Mongoose queries *)

Definition set_users (l : list User.t) (w : World) : World :=
  mkWorld l (sessions w) (attendances w) (notes w) (emitted w).
Definition set_sessions (l : list Session.t) (w : World) : World :=
  mkWorld (users w) l (attendances w) (notes w) (emitted w).
Definition set_attendances (l : list Attendance.t) (w : World) : World :=
  mkWorld (users w) (sessions w) l (notes w) (emitted w).
Definition set_notes (l : list Note.t) (w : World) : World :=
  mkWorld (users w) (sessions w) (attendances w) l (emitted w).
Definition set_emitted (l : list Emitted) (w : World) : World :=
  mkWorld (users w) (sessions w) (attendances w) (notes w) l.

(** [Model.findOne(filter)]: the first document that matches. *)
Definition findOne {D} (coll : World → list D) (P : D → Prop)
    `{∀ d, Decision (P d)} : Handler (option D) :=
  gets (λ w, snd <$> list_find P (coll w)).

(** [Model.find(filter)]: the documents that match, in store order. *)
Definition find {D} (coll : World → list D) (P : D → Prop)
    `{∀ d, Decision (P d)} : Handler (list D) :=
  gets (λ w, filter P (coll w)).

(** [Session.findOneAndUpdate(filter, update, { new: true })]: the first
    match is replaced in place and the updated document is returned. *)
Definition findOneAndUpdate (P : Session.t → Prop) `{∀ d, Decision (P d)}
    (update : Session.t → Session.t) : Handler (option Session.t) :=
  λ w, match list_find P (sessions w) with
       | Some (i, s) =>
           (Next (Some (update s)),
            set_sessions (<[i := update s]> (sessions w)) w)
       | None => (Next None, w)
       end.

(** [doc.save()] of a new document. *)
Definition save_user (u : User.t) : Handler unit :=
  modify (λ w, set_users (users w ++ [u]) w).
Definition save_session (s : Session.t) : Handler unit :=
  modify (λ w, set_sessions (sessions w ++ [s]) w).
Definition save_attendance (a : Attendance.t) : Handler unit :=
  modify (λ w, set_attendances (attendances w ++ [a]) w).
Definition save_note (n : Note.t) : Handler unit :=
  modify (λ w, set_notes (notes w ++ [n]) w).

(** [io.to(room).emit(event, data)] *)
Definition emit (room event : string) (data : Attendance.t) : Handler unit :=
  modify (λ w, set_emitted (emitted w ++ [mkEmitted room event data]) w).

(** [.sort({ startTime: -1 })] and [.sort({ createdAt: -1 })]: the order
    relations handed to [merge_sort].  The order among documents with
    equal keys is left open by the database; the statements below only
    use that the result is sorted and a permutation of the input. *)
Definition later (a b : Session.t) : Prop :=
  Session.startTime b ≤ Session.startTime a.
Definition newer (a b : Note.t) : Prop :=
  Note.createdAt b ≤ Note.createdAt a.

#[global] Instance later_dec a b : Decision (later a b) :=
  Z.le_dec (Session.startTime b) (Session.startTime a).
#[global] Instance newer_dec a b : Decision (newer a b) :=
  Z.le_dec (Note.createdAt b) (Note.createdAt a).

(** ** Request bodies *)

Module RegisterBody.
Record t := mk {
  email : string;
  password : option string;
  role : option Role;
  name : option string;
  college : option string;
  department : option string;
  class : option string;
  rollNumber : option string;
  address : option string;
  profileImage : option string;
  idCardImage : option string;
  timetableImage : option string
}.
End RegisterBody.

Module LoginBody.
Record t := mk { email : string; password : option string }.
End LoginBody.

Module NoteReq.
Record t := mk { content : option string }.
End NoteReq.

Module MarkBody.
Record t := mk {
  sessionId : string;
  latitude : option Number;
  longitude : option Number
}.
End MarkBody.

Module StartBody.
Record t := mk {
  subject : option string;
  latitude : option Number;
  longitude : option Number
}.
End StartBody.

Module EndBody.
Record t := mk { sessionId : string }.
End EndBody.

(** [req.params] of the session-attendance route. *)
Module Params.
Record t := mk { sessionId : string }.
End Params.

(** ** The routes *)

Section Routes.
Context {ext : Externals}.

(** The body of the [try] of the auth middleware, up to [req.user]. *)
Definition authenticate {B} (req : Request B) : Handler User.t :=
  header ← match Authorization req with
            | Some h => mret h
            | None => throw TypeError
            end;
  let token := replace "Bearer " "" header in
  decoded ← match jwt_verify token with
             | Some id => mret id
             | None => throw JsonWebTokenError
             end;
  user ← findOne users (λ u, User._id u = decoded);
  match user with
  | Some user => mret user
  | None => throw Error
  end.

(** The middleware.  [next()] is called inside the [try]; every route
    below catches what it throws itself, so the [catch] here only ever
    sees what [authenticate] throws. *)
Definition auth {B} (req : Request B) (next : User.t → Handler unit)
    : Handler unit :=
  try_catch (user ← authenticate req; next user)
            (λ _, send 401 (ErrorBody "Please authenticate.")).

(** [POST /api/register] *)
Definition register (env : Env) (req : Request RegisterBody.t)
    : Handler unit :=
  try_catch
    (let b := body req in
     existing ← findOne users (λ u, User.email u = RegisterBody.email b);
     match existing with
     | Some _ => send 400 (ErrorBody "Email already used")
     | None =>
         hashed ← match RegisterBody.password b with
                   | Some p => mret (bcrypt_hash (salt env) p)
                   | None => throw BcryptError
                   end;
         let user :=
           User.mk (fresh_id env) (RegisterBody.email b) (Some hashed)
             (RegisterBody.role b) (RegisterBody.name b)
             (RegisterBody.college b) (RegisterBody.department b)
             (RegisterBody.class b) (RegisterBody.rollNumber b)
             (RegisterBody.address b) (RegisterBody.profileImage b)
             (RegisterBody.idCardImage b) (RegisterBody.timetableImage b)
             (now env) in
         save_user user;;
         let token := jwt_sign (User._id user) in
         send 201 (UserToken user token)
     end)
    (λ e, send 400 (ExnBody e)).

(** [POST /api/login] *)
Definition login (req : Request LoginBody.t) : Handler unit :=
  try_catch
    (let b := body req in
     user ← findOne users (λ u, User.email u = LoginBody.email b);
     match user with
     | None => send 400 (ErrorBody "Invalid credentials")
     | Some user =>
         isMatch ← match LoginBody.password b, User.password user with
                    | Some p, Some h => mret (bcrypt_compare p h)
                    | _, _ => throw BcryptError
                    end;
         if isMatch : bool
         then send 200 (UserToken user (jwt_sign (User._id user)))
         else send 400 (ErrorBody "Invalid credentials")
     end)
    (λ e, send 400 (ExnBody e)).

(** [GET /api/me] *)
Definition me (req : Request unit) : Handler unit :=
  auth req (λ u,
    let user :=
      User.mk (User._id u) (User.email u) None (User.role u) (User.name u)
        (User.college u) (User.department u) (User.class u)
        (User.rollNumber u) (User.address u) (User.profileImage u)
        (User.idCardImage u) (User.timetableImage u) (User.createdAt u) in
    send 200 (UserBody user)).

(** [POST /api/notes], on a body that has passed the cast;
    [post_notes_json] is the route on the body as it is sent. *)
Definition post_notes (env : Env) (req : Request NoteReq.t) : Handler unit :=
  auth req (λ user,
    try_catch
      (let note := Note.mk (fresh_id env) (User._id user)
                           (NoteReq.content (body req)) (now env) in
       save_note note;;
       send 201 (NoteBody note))
      (λ e, send 400 (ExnBody e))).

(** [GET /api/notes] *)
Definition get_notes (req : Request unit) : Handler unit :=
  auth req (λ user,
    try_catch
      (found ← find notes (λ n, Note.userId n = User._id user);
       send 200 (NotesBody (merge_sort newer found)))
      (λ e, send 400 (ExnBody e))).

(** [POST /api/student/mark-attendance], on a body that has passed the
    cast; [mark_attendance_json] is the route on the body as it is
    sent. *)
Definition mark_attendance (env : Env) (req : Request MarkBody.t)
    : Handler unit :=
  auth req (λ user,
    try_catch
      (let sessionId := MarkBody.sessionId (body req) in
       let latitude := MarkBody.latitude (body req) in
       let longitude := MarkBody.longitude (body req) in
       session ← findOne sessions
         (λ s, Session.sessionId s = sessionId ∧ Session.active s = true);
       match session with
       | None => send 404 (ErrorBody "Session not active")
       | Some session =>
           already ← findOne attendances
             (λ a, Attendance.sessionId a = sessionId
                   ∧ Attendance.studentId a = User._id user);
           match already with
           | Some _ => send 400 (ErrorBody "Already marked")
           | None =>
               let attendance :=
                 Attendance.mk (fresh_id env) sessionId (User._id user)
                   (User.name user) (User.rollNumber user)
                   (mkLocation latitude longitude) (now env)
                   (User.profileImage user) in
               save_attendance attendance;;
               emit sessionId "attendance_marked" attendance;;
               send 201
                 (Marked true "Attendance marked"
                    (Session.sessionId session) (Session.subject session)
                    (toISOString (Attendance.timestamp attendance))
                    attendance)
           end
       end)
      (λ e, send 400 (ExnBody e))).

(** The element of the history built for [session]. *)
Definition history_entry (attendanceMap : gmap string Attendance.t)
    (session : Session.t) : HistoryEntry.t :=
  let attendance := attendanceMap !! Session.sessionId session in
  HistoryEntry.mk
    (Session.sessionId session)
    (Session.subject session)
    (match attendance with
     | Some a => Attendance.timestamp a
     | None => Session.startTime session
     end)
    (match attendance with Some _ => Present | None => Absent end)
    (Session.location session).

(** [GET /api/student/attendance-history] *)
Definition attendance_history (req : Request unit) : Handler unit :=
  auth req (λ user,
    try_catch
      (student ← findOne users (λ u, User._id u = User._id user);
       found ← find sessions (λ s, Session.active s = false);
       let sessions := merge_sort later found in
       attendances ← find attendances
         (λ a, Attendance.studentId a = User._id user);
       let attendanceMap : gmap string Attendance.t :=
         foldl (λ m att, <[Attendance.sessionId att := att]> m)
               ∅ attendances in
       let history := map (history_entry attendanceMap) sessions in
       send 200 (HistoryBody history))
      (λ e, send 500 (ErrorBody "Failed to load attendance history"))).

(** [POST /api/teacher/start-session], on a body that has passed the
    cast (nothing in it can make [save] reject); [start_session_json]
    is the route on the body as it is sent. *)
Definition start_session (env : Env) (req : Request StartBody.t)
    : Handler unit :=
  auth req (λ user,
    try_catch
      (let subject := StartBody.subject (body req) in
       let latitude := StartBody.latitude (body req) in
       let longitude := StartBody.longitude (body req) in
       let sessionId := toUpperCase (substring (uuid env) 0 6) in
       let session :=
         Session.mk (fresh_id env) sessionId (User._id user) subject
           (mkLocation latitude longitude) (now env) None true in
       save_session session;;
       send 201 (SessionBody session))
      (λ e, send 400 (ExnBody e))).

(** The update [{ active: false, endTime: new Date() }]. *)
Definition ended (t : Date) (s : Session.t) : Session.t :=
  Session.mk (Session._id s) (Session.sessionId s) (Session.teacherId s)
    (Session.subject s) (Session.location s) (Session.startTime s)
    (Some t) false.

(** [POST /api/teacher/end-session] *)
Definition end_session (env : Env) (req : Request EndBody.t)
    : Handler unit :=
  auth req (λ user,
    try_catch
      (session ← findOneAndUpdate
         (λ s, Session.sessionId s = EndBody.sessionId (body req)
               ∧ Session.teacherId s = User._id user
               ∧ Session.active s = true)
         (ended (now env));
       match session with
       | None => send 404 (ErrorBody "Session not found")
       | Some session => send 200 (SessionBody session)
       end)
      (λ e, send 400 (ExnBody e))).

(** [GET /api/teacher/session-attendance/:sessionId] *)
Definition session_attendance (req : Request Params.t) : Handler unit :=
  auth req (λ user,
    try_catch
      (attendance ← find attendances
         (λ a, Attendance.sessionId a = Params.sessionId (body req));
       send 200 (AttendanceBody attendance))
      (λ e, send 400 (ExnBody e))).

(** [GET /] *)
Definition root : Handler unit :=
  send 200 (TextBody "Attendance API Running").

End Routes.

(** ** Views used by the statements *)

Section Views.
Context {ext : Externals}.

(** The caller of a request, when the middleware lets it through. *)
Definition caller {B} (req : Request B) (w : World) : option User.t :=
  match Authorization req with
  | Some header =>
      match jwt_verify (replace "Bearer " "" header) with
      | Some decoded =>
          snd <$> list_find (λ u, User._id u = decoded) (users w)
      | None => None
      end
  | None => None
  end.

(** The filters of the queries. *)
Definition active_with (code : string) (s : Session.t) : Prop :=
  Session.sessionId s = code ∧ Session.active s = true.
Definition marked_by (code : string) (student : ObjectId)
    (a : Attendance.t) : Prop :=
  Attendance.sessionId a = code ∧ Attendance.studentId a = student.
Definition endable (code : string) (teacher : ObjectId) (s : Session.t)
    : Prop :=
  Session.sessionId s = code ∧ Session.teacherId s = teacher
  ∧ Session.active s = true.

#[global] Instance active_with_dec code s : Decision (active_with code s).
Proof. unfold active_with. apply _. Defined.
#[global] Instance marked_by_dec code t a : Decision (marked_by code t a).
Proof. unfold marked_by. apply _. Defined.
#[global] Instance endable_dec code t s : Decision (endable code t s).
Proof. unfold endable. apply _. Defined.

(** The record that a check-in of [user] stores. *)
Definition check_in (env : Env) (b : MarkBody.t) (user : User.t)
    : Attendance.t :=
  Attendance.mk (fresh_id env) (MarkBody.sessionId b) (User._id user)
    (User.name user) (User.rollNumber user)
    (mkLocation (MarkBody.latitude b) (MarkBody.longitude b)) (now env)
    (User.profileImage user).

End Views.

(** ** Formats *)

Definition is_hex (c : ascii) : bool :=
  let n := N_of_ascii c in
  ((48 <=? n) && (n <=? 57) || (97 <=? n) && (n <=? 102))%N.

Definition is_upper_alnum (c : ascii) : bool :=
  let n := N_of_ascii c in
  ((48 <=? n) && (n <=? 57) || (65 <=? n) && (n <=? 90))%N.

Definition is_digit (c : ascii) : bool :=
  let n := N_of_ascii c in ((48 <=? n) && (n <=? 57))%N.

(** What [uuidv4()] returns: 36 characters, lower-case hexadecimal digits
    in groups of 8-4-4-4-12 separated by hyphens. *)
Fixpoint uuid_from (i : nat) (s : string) : bool :=
  match s with
  | EmptyString => (i =? 36)%nat
  | String c s' =>
      (if ((i =? 8) || (i =? 13) || (i =? 18) || (i =? 23))%nat
       then Ascii.eqb c "-" else is_hex c)
      && uuid_from (S i) s'
  end.
Definition uuid_format (s : string) : bool := uuid_from 0 s.

(** A session code: six characters, each a digit or an upper-case letter. *)
Definition code_format (s : string) : bool :=
  (String.length s =? 6)%nat
  && forallb is_upper_alnum (list_ascii_of_string s).

(** ** The service as a transition system *)

(** One request to one of the routes.  The socket handler [join_session]
    only puts a socket in a room of socket.io and touches no collection;
    it is no call here. *)
Inductive Call :=
  | PostRegister (env : Env) (req : Request RegisterBody.t)
  | PostLogin (req : Request LoginBody.t)
  | GetMe (req : Request unit)
  | PostNotes (env : Env) (req : Request NoteReq.t)
  | GetNotes (req : Request unit)
  | PostMarkAttendance (env : Env) (req : Request MarkBody.t)
  | GetAttendanceHistory (req : Request unit)
  | PostStartSession (env : Env) (req : Request StartBody.t)
  | PostEndSession (env : Env) (req : Request EndBody.t)
  | GetSessionAttendance (req : Request Params.t)
  | GetRoot.

Definition run {ext : Externals} (c : Call) : Handler unit :=
  match c with
  | PostRegister env req => register env req
  | PostLogin req => login req
  | GetMe req => me req
  | PostNotes env req => post_notes env req
  | GetNotes req => get_notes req
  | PostMarkAttendance env req => mark_attendance env req
  | GetAttendanceHistory req => attendance_history req
  | PostStartSession env req => start_session env req
  | PostEndSession env req => end_session env req
  | GetSessionAttendance req => session_attendance req
  | GetRoot => root
  end.

Definition step {ext : Externals} (w w' : World) : Prop :=
  ∃ c, snd (run c w) = w'.

(** A request was answered with an error status. *)
Definition failed (r : Response) : Prop := (400 ≤ status r)%nat.

(** The only change a stored session can undergo: none, or being ended
    while active. *)
Definition evolves (s s' : Session.t) : Prop :=
  s' = s ∨ (Session.active s = true ∧ ∃ t, s' = ended t s).

(** The error answers of the session and attendance routes. *)
Definition Unauthenticated : Response :=
  mkResponse 401 (ErrorBody "Please authenticate.").
Definition SessionNotActive : Response :=
  mkResponse 404 (ErrorBody "Session not active").
Definition AlreadyMarked : Response :=
  mkResponse 400 (ErrorBody "Already marked").
Definition NotFound : Response :=
  mkResponse 404 (ErrorBody "Session not found").

(** The records that [student] holds under [code], in store order. *)
Definition records_of (student : ObjectId) (code : string)
    (l : list Attendance.t) : list Attendance.t :=
  filter (marked_by code student) l.

(** The history entry of a session in the words of the specification:
    [Present] when the student holds a record under the session's code,
    dated by that record (the last one, should there be several), and
    otherwise [Absent], dated by the start of the session. *)
Definition spec_entry (student : ObjectId) (l : list Attendance.t)
    (s : Session.t) : HistoryEntry.t :=
  let held := records_of student (Session.sessionId s) l in
  HistoryEntry.mk
    (Session.sessionId s)
    (Session.subject s)
    (match last held with
     | Some a => Attendance.timestamp a
     | None => Session.startTime s
     end)
    (match held with [] => Absent | _ => Present end)
    (Session.location s).

(** The shape of an ISO-8601 date-time in UTC with milliseconds:
    [YYYY-MM-DDTHH:mm:ss.sssZ], or the expanded form with a signed
    six-digit year. *)
Inductive CharClass := Digit | Lit (c : ascii).

Fixpoint matches (pat : list CharClass) (s : string) : bool :=
  match pat, s with
  | [], EmptyString => true
  | Digit :: pat', String c s' => is_digit c && matches pat' s'
  | Lit l :: pat', String c s' => Ascii.eqb c l && matches pat' s'
  | _, _ => false
  end.

Definition after_year : list CharClass :=
  [Lit "-"; Digit; Digit; Lit "-"; Digit; Digit; Lit "T";
   Digit; Digit; Lit ":"; Digit; Digit; Lit ":"; Digit; Digit;
   Lit "."; Digit; Digit; Digit; Lit "Z"]%char.

Definition iso8601 (s : string) : bool :=
  matches ([Digit; Digit; Digit; Digit] ++ after_year) s
  || matches ([Lit "+"; Digit; Digit; Digit; Digit; Digit; Digit]%char
              ++ after_year) s
  || matches ([Lit "-"; Digit; Digit; Digit; Digit; Digit; Digit]%char
              ++ after_year) s.

(** The invariant of the attendance records: at most one record per
    pair of session code and student. *)
Definition unique_marks (l : list Attendance.t) : Prop :=
  ∀ code student, (length (records_of student code l) ≤ 1)%nat.

(** ** Views used by the further properties *)

(** [pat] occurs somewhere in [s]. *)
Fixpoint contains (pat s : string) : bool :=
  String.prefix pat s
  || match s with
     | EmptyString => false
     | String _ s' => contains pat s'
     end.

(** The user that the middleware of a call resolves: [None] for the
    three routes registered without [auth]. *)
Definition guarded {ext : Externals} (c : Call) (w : World)
    : option (option User.t) :=
  match c with
  | PostRegister _ _ | PostLogin _ | GetRoot => None
  | GetMe req => Some (caller req w)
  | PostNotes _ req => Some (caller req w)
  | GetNotes req => Some (caller req w)
  | PostMarkAttendance _ req => Some (caller req w)
  | GetAttendanceHistory req => Some (caller req w)
  | PostStartSession _ req => Some (caller req w)
  | PostEndSession _ req => Some (caller req w)
  | GetSessionAttendance req => Some (caller req w)
  end.

(** The event that announces a record. *)
Definition announced (a : Attendance.t) : Emitted :=
  mkEmitted (Attendance.sessionId a) "attendance_marked" a.

(** Everything a single request can do to the world. *)
Inductive effect (w : World) : World → Prop :=
  | effect_none : effect w w
  | effect_user u :
      list_find (λ v, User.email v = User.email u) (users w) = None →
      effect w (set_users (users w ++ [u]) w)
  | effect_note T n :
      T ∈ users w → Note.userId n = User._id T →
      effect w (set_notes (notes w ++ [n]) w)
  | effect_mark T s a :
      T ∈ users w → Attendance.studentId a = User._id T →
      s ∈ sessions w → active_with (Attendance.sessionId a) s →
      list_find (marked_by (Attendance.sessionId a) (Attendance.studentId a))
                (attendances w) = None →
      effect w (set_emitted (emitted w ++ [announced a])
                  (set_attendances (attendances w ++ [a]) w))
  | effect_start T s :
      T ∈ users w → Session.teacherId s = User._id T →
      Session.active s = true → Session.endTime s = None →
      effect w (set_sessions (sessions w ++ [s]) w)
  | effect_end T i s t :
      T ∈ users w → sessions w !! i = Some s →
      Session.teacherId s = User._id T → Session.active s = true →
      effect w (set_sessions (<[i := ended t s]> (sessions w)) w).

(** Invariants of the store. *)
Definition unique_emails (l : list User.t) : Prop :=
  NoDup (map User.email l).

Definition consistent (s : Session.t) : Prop :=
  (Session.active s = true ∧ Session.endTime s = None)
  ∨ (Session.active s = false ∧ ∃ t, Session.endTime s = Some t).

Definition linked (w : World) : Prop :=
  (∀ a, a ∈ attendances w →
        (∃ u, u ∈ users w ∧ User._id u = Attendance.studentId a)
        ∧ ∃ s, s ∈ sessions w
               ∧ Session.sessionId s = Attendance.sessionId a)
  ∧ (∀ s, s ∈ sessions w →
          ∃ u, u ∈ users w ∧ User._id u = Session.teacherId s)
  ∧ (∀ n, n ∈ notes w → ∃ u, u ∈ users w ∧ User._id u = Note.userId n).

(** [/api/me] sends the user document without its password. *)
Definition without_password (u : User.t) : User.t :=
  User.mk (User._id u) (User.email u) None (User.role u) (User.name u)
    (User.college u) (User.department u) (User.class u)
    (User.rollNumber u) (User.address u) (User.profileImage u)
    (User.idCardImage u) (User.timetableImage u) (User.createdAt u).

(** The answer of a failed login. *)
Definition InvalidCredentials : Response :=
  mkResponse 400 (ErrorBody "Invalid credentials").

Definition is_upper_hex (c : ascii) : bool :=
  let n := N_of_ascii c in
  ((48 <=? n) && (n <=? 57) || (65 <=? n) && (n <=? 70))%N.

(** What a history entry says about the session alone. *)
Definition session_part (e : HistoryEntry.t)
    : string * option string * Location :=
  (HistoryEntry.sessionId e, HistoryEntry.subject e, HistoryEntry.location e).

(** ** Bodies as they are sent *)

(** A JSON value. *)
#[local] Unset Elimination Schemes.
Inductive Json :=
  | JNull
  | JBool (b : bool)
  | JNumber (n : Number)
  | JString (s : string)
  | JArray (l : list Json)
  | JObject (l : list (string * Json)).
#[local] Set Elimination Schemes.

(** A field of a JSON body as Mongoose's cast to the schema type [T]
    takes it: not sent (or null), cast to the value [v], or a value that
    the cast refuses (a text that is no number for a [Number] path, an
    object or array for a [String] path). *)
Inductive Field (T : Type) :=
  | Omitted
  | Given (v : T)
  | Uncastable (sent : Json).
Arguments Omitted {T}.
Arguments Given {T} _.
Arguments Uncastable {T} _.

(** The outcome of the cast: [None] is the [CastError]. *)
Definition cast {T} (f : Field T) : option (option T) :=
  match f with
  | Omitted => Some None
  | Given v => Some (Some v)
  | Uncastable _ => None
  end.

Module StartJson.
Record t := mk {
  subject : Field string;
  latitude : Field Number;
  longitude : Field Number
}.
(** The body of the typed route, when every field passes the cast. *)
Definition typed (b : t) : option StartBody.t :=
  match cast (subject b), cast (latitude b), cast (longitude b) with
  | Some s, Some la, Some lo => Some (StartBody.mk s la lo)
  | _, _, _ => None
  end.
End StartJson.

Module NoteJson.
Record t := mk { content : Field string }.
Definition typed (b : t) : option NoteReq.t :=
  match cast (content b) with
  | Some c => Some (NoteReq.mk c)
  | None => None
  end.
End NoteJson.

Module MarkJson.
Record t := mk {
  sessionId : string;
  latitude : Field Number;
  longitude : Field Number
}.
Definition typed (b : t) : option MarkBody.t :=
  match cast (latitude b), cast (longitude b) with
  | Some la, Some lo => Some (MarkBody.mk (sessionId b) la lo)
  | _, _ => None
  end.
End MarkJson.

(** ** The routes on bodies as they are sent

    The three routes that build a document from fields of the body.  A
    field that fails its cast is remembered by the new document and makes
    [await doc.save()] reject with a [ValidationError], which the [catch]
    of the route answers with status 400.  On a body whose fields all
    pass the cast these are the routes above. *)

Section JsonRoutes.
Context {ext : Externals}.

(** [POST /api/notes] *)
Definition post_notes_json (env : Env) (req : Request NoteJson.t)
    : Handler unit :=
  auth req (λ user,
    try_catch
      (match cast (NoteJson.content (body req)) with
       | Some content =>
           let note := Note.mk (fresh_id env) (User._id user) content
                               (now env) in
           save_note note;;
           send 201 (NoteBody note)
       | None => throw ValidationError
       end)
      (λ e, send 400 (ExnBody e))).

(** [POST /api/student/mark-attendance] *)
Definition mark_attendance_json (env : Env) (req : Request MarkJson.t)
    : Handler unit :=
  auth req (λ user,
    try_catch
      (let sessionId := MarkJson.sessionId (body req) in
       let latitude := MarkJson.latitude (body req) in
       let longitude := MarkJson.longitude (body req) in
       session ← findOne sessions
         (λ s, Session.sessionId s = sessionId ∧ Session.active s = true);
       match session with
       | None => send 404 (ErrorBody "Session not active")
       | Some session =>
           already ← findOne attendances
             (λ a, Attendance.sessionId a = sessionId
                   ∧ Attendance.studentId a = User._id user);
           match already with
           | Some _ => send 400 (ErrorBody "Already marked")
           | None =>
               match cast latitude, cast longitude with
               | Some latitude, Some longitude =>
                   let attendance :=
                     Attendance.mk (fresh_id env) sessionId (User._id user)
                       (User.name user) (User.rollNumber user)
                       (mkLocation latitude longitude) (now env)
                       (User.profileImage user) in
                   save_attendance attendance;;
                   emit sessionId "attendance_marked" attendance;;
                   send 201
                     (Marked true "Attendance marked"
                        (Session.sessionId session)
                        (Session.subject session)
                        (toISOString (Attendance.timestamp attendance))
                        attendance)
               | _, _ => throw ValidationError
               end
           end
       end)
      (λ e, send 400 (ExnBody e))).

(** [POST /api/teacher/start-session] *)
Definition start_session_json (env : Env) (req : Request StartJson.t)
    : Handler unit :=
  auth req (λ user,
    try_catch
      (let subject := StartJson.subject (body req) in
       let latitude := StartJson.latitude (body req) in
       let longitude := StartJson.longitude (body req) in
       let sessionId := toUpperCase (substring (uuid env) 0 6) in
       match cast subject, cast latitude, cast longitude with
       | Some subject, Some latitude, Some longitude =>
           let session :=
             Session.mk (fresh_id env) sessionId (User._id user) subject
               (mkLocation latitude longitude) (now env) None true in
           save_session session;;
           send 201 (SessionBody session)
       | _, _, _ => throw ValidationError
       end)
      (λ e, send 400 (ExnBody e))).

End JsonRoutes.

(** The answer of a route whose document failed validation. *)
Definition ValidationFailed : Response :=
  mkResponse 400 (ExnBody ValidationError).

(** ** The calendar behind ISO-8601 dates *)

Definition leap (y : Z) : bool :=
  (y mod 4 =? 0) && (negb (y mod 100 =? 0) || (y mod 400 =? 0)).

Definition month_length (y m : Z) : Z :=
  match m with
  | 1 | 3 | 5 | 7 | 8 | 10 | 12 => 31
  | 4 | 6 | 9 | 11 => 30
  | 2 => if leap y then 29 else 28
  | _ => 0
  end.

(** Days of year [y] before its month [m]. *)
Definition days_before_month (y m : Z) : Z :=
  match m with
  | 1 => 0 | 2 => 31 | 3 => 59 | 4 => 90 | 5 => 120 | 6 => 151
  | 7 => 181 | 8 => 212 | 9 => 243 | 10 => 273 | 11 => 304 | _ => 334
  end + (if leap y && (2 <? m) then 1 else 0).

(** Days from 0000-01-01 to the first day of year [y]: 365 a year and
    one more for every leap year before [y]. *)
Definition days_before_year (y : Z) : Z :=
  365 * y + (y + 3) / 4 - (y + 99) / 100 + (y + 399) / 400.

(** The day number (days since 1970-01-01) of a date of the calendar. *)
Definition day_number (y m d : Z) : Z :=
  days_before_year y + days_before_month y m + (d - 1) - 719528.

(** [civil] gives a date of the calendar with the day number it was
    given; [all_from n z] checks it for the [n] days from [z] on. *)
Definition civil_ok (z : Z) : bool :=
  let '(y, m, d) := civil z in
  (1 <=? m) && (m <=? 12) && (1 <=? d) && (d <=? month_length y m)
  && (day_number y m d =? z).

Fixpoint all_from (n : nat) (z : Z) : bool :=
  match n with
  | O => true
  | S n' => civil_ok z && all_from n' (z + 1)
  end.

(** Reading an ISO-8601 date-time. *)
Definition digit_value (c : ascii) : option Z :=
  let n := N_of_ascii c in
  if ((48 <=? n) && (n <=? 57))%N then Some (Z.of_N n - 48) else None.

Fixpoint number (acc : Z) (cs : list ascii) : option Z :=
  match cs with
  | [] => Some acc
  | c :: cs' => d ← digit_value c; number (10 * acc + d) cs'
  end.

(** [n] digits in front of [cs]: their value and what follows them. *)
Definition digits (n : nat) (cs : list ascii) : option (Z * list ascii) :=
  if (length (take n cs) =? n)%nat
  then v ← number 0 (take n cs); Some (v, drop n cs)
  else None.

Definition literal (c : ascii) (cs : list ascii) : option (list ascii) :=
  match cs with
  | x :: cs' => if Ascii.eqb x c then Some cs' else None
  | [] => None
  end.

Definition signed_year (cs : list ascii) : option (Z * list ascii) :=
  match cs with
  | [] => None
  | c :: cs' =>
      if Ascii.eqb c "+" then digits 6 cs'
      else if Ascii.eqb c "-"
      then '(y, r) ← digits 6 cs'; if y =? 0 then None else Some (- y, r)
      else digits 4 cs
  end.

(** The instant that an ISO-8601 date-time in UTC denotes, in
    milliseconds since the epoch; [None] for a text that is no such
    date-time or names no date of the calendar. *)
Definition instant_of (s : string) : option Date :=
  '(y, cs) ← signed_year (list_ascii_of_string s);
  cs ← literal "-" cs; '(m, cs) ← digits 2 cs;
  cs ← literal "-" cs; '(d, cs) ← digits 2 cs;
  cs ← literal "T" cs; '(h, cs) ← digits 2 cs;
  cs ← literal ":" cs; '(mi, cs) ← digits 2 cs;
  cs ← literal ":" cs; '(sec, cs) ← digits 2 cs;
  cs ← literal "." cs; '(ms, cs) ← digits 3 cs;
  cs ← literal "Z" cs;
  if bool_decide (cs = []) && (1 <=? m) && (m <=? 12)
     && (1 <=? d) && (d <=? month_length y m)
     && (h <? 24) && (mi <? 60) && (sec <? 60)
  then Some (day_number y m d * 86400000
             + h * 3600000 + mi * 60000 + sec * 1000 + ms)
  else None.

(** The time values a [Date] can hold: at most 100 000 000 days either
    side of the epoch. *)
Definition valid_date (t : Date) : Prop :=
  -8640000000000000 ≤ t ≤ 8640000000000000.

(** ** A small school, for the examples *)

Module Demo.

Definition verify (token : string) : option ObjectId :=
  if String.eqb token "ada" then Some 1%N
  else if String.eqb token "bao" then Some 2%N
  else if String.eqb token "cy" then Some 3%N
  else if String.eqb token "gone" then Some 9%N
  else None.

Definition ext : Externals := {|
  jwt_sign := λ id, match id with 1%N => "ada" | 2%N => "bao"
                             | 3%N => "cy" | _ => "gone" end;
  jwt_verify := verify;
  bcrypt_hash := λ salt p, salt ++ "$" ++ p;
  bcrypt_compare := λ p h, String.eqb ("s$" ++ p) h
|}.

Definition person (id : ObjectId) (r : Role) (n roll : string) : User.t :=
  User.mk id (n ++ "@school.example") (Some ("s$" ++ n)) (Some r) (Some n)
    None None None (Some roll) None (Some (n ++ ".png")) None None 0.

Definition ada := person 1 teacher "Ada" "T-1".
Definition bao := person 2 student "Bao" "S-7".
Definition cy := person 3 teacher "Cy" "T-2".

Definition request {B} (token : string) (b : B) : Request B :=
  mkRequest (Some ("Bearer " ++ token)) b.

Definition school : World := mkWorld [ada; bao; cy] [] [] [] [].

Definition env1 := mkEnv 1000 101 "ab12cd34-7b2d-4e5f-8a6b-0123456789ab" "s".
Definition env2 := mkEnv 2000 102 "ab12cd99-1c3d-4a5b-9e6f-ba9876543210" "s".
Definition env3 := mkEnv 3000 103 "0f9e8d7c-6b5a-4433-a211-00ffeeddccbb" "s".
Definition env4 := mkEnv 4000 104 "77aa10bc-0000-4000-8000-000000000000" "s".
Definition env5 := mkEnv 5000 105 "c0ffee00-dead-4bee-8f00-0123456789ab" "s".

(** Ada opens a session (code AB12CD). *)
Definition opened : World :=
  snd (start_session (ext := ext) env1
         (request "ada" (StartBody.mk (Some "Algebra") (Some 48.5%float)
                                      (Some 2.25%float))) school).

(** Bao checks in. *)
Definition checked_in : World :=
  snd (mark_attendance (ext := ext) env2
         (request "bao" (MarkBody.mk "AB12CD" (Some 48.5%float) None)) opened).

(** Ada closes the session. *)
Definition closed : World :=
  snd (end_session (ext := ext) env3 (request "ada" (EndBody.mk "AB12CD"))
         checked_in).

(** Ada opens two sessions in a row and [uuidv4()] happens to give both
    the same first six characters. *)
Definition collided : World :=
  snd (start_session (ext := ext) env2
         (request "ada" (StartBody.mk (Some "Geometry") None None)) opened).

(** After the collision Bao checks in under the shared code and Ada
    closes both sessions. *)
Definition both_closed : World :=
  let w1 := snd (mark_attendance (ext := ext) env3
                   (request "bao" (MarkBody.mk "AB12CD" None None))
                   collided) in
  let w2 := snd (end_session (ext := ext) env4
                   (request "ada" (EndBody.mk "AB12CD")) w1) in
  snd (end_session (ext := ext) env5
         (request "ada" (EndBody.mk "AB12CD")) w2).

(** A store in which Bao holds two records under one code (what two
    overlapping check-ins can leave behind). *)
Definition doubled : World :=
  mkWorld [ada; bao; cy]
    [Session.mk 101 "AB12CD" 1 (Some "Algebra") (mkLocation None None)
       1000 (Some 3000) false;
     Session.mk 102 "AB12CD" 3 (Some "Geometry") (mkLocation None None)
       5000 (Some 7000) false]
    [Attendance.mk 201 "AB12CD" 2 (Some "Bao") (Some "S-7")
       (mkLocation None None) 2000 (Some "Bao.png");
     Attendance.mk 202 "AB12CD" 2 (Some "Bao") (Some "S-7")
       (mkLocation None None) 2001 (Some "Bao.png")]
    [] [].

(** Cy registers a colleague (the id drawn is 9). *)
Definition dee_body : RegisterBody.t :=
  RegisterBody.mk "dee@school.example" (Some "pw") (Some teacher)
    (Some "Dee") None None None None None None None None.

Definition env9 := mkEnv 9000 9 "9d3e0000-0000-4000-8000-000000000009" "s".

Definition enrolled : World :=
  snd (register (ext := ext) env9 (mkRequest None dee_body) closed).

(** Bao writes two notes and Cy one. *)
Definition noted : World :=
  let w1 := snd (post_notes (ext := ext) env4
                   (request "bao" (NoteReq.mk (Some "bring compass"))) closed) in
  let w2 := snd (post_notes (ext := ext) env3
                   (request "cy" (NoteReq.mk (Some "room 12"))) w1) in
  snd (post_notes (ext := ext) env5
         (request "bao" (NoteReq.mk None)) w2).

Definition dee : User.t :=
  User.mk 9 "dee@school.example" (Some "s$pw") (Some teacher) (Some "Dee")
    None None None None None None None None 9000.

(** The record of Bao's check-in and the session as Ada's call ended it. *)
Definition bao_record : Attendance.t :=
  Attendance.mk 102 "AB12CD" 2 (Some "Bao") (Some "S-7")
    (mkLocation (Some 48.5%float) None) 2000 (Some "Bao.png").

Definition algebra_ended : Session.t :=
  Session.mk 101 "AB12CD" 1 (Some "Algebra")
    (mkLocation (Some 48.5%float) (Some 2.25%float)) 1000 (Some 3000) false.

(** Later Ada opens a new session and the identifier drawn starts with
    the six characters of the first one. *)
Definition env6 := mkEnv 6000 106 "ab12cd77-5e5e-4f4f-8a8a-1234567890ab" "s".

Definition reopened : World :=
  snd (start_session (ext := ext) env6
         (request "ada" (StartBody.mk (Some "Algebra II") None None)) closed).

(** Bodies as sent: one whose fields all pass the cast, and one whose
    latitude is the text abc. *)
Definition geometry_json : StartJson.t :=
  StartJson.mk (Given "Geometry") Omitted Omitted.

Definition abc_json : StartJson.t :=
  StartJson.mk (Given "Geometry") (Uncastable (JString "abc")) Omitted.

End Demo.

(** * Proofs *)

(** ** The string functions on examples *)

Example iso0 : toISOString 0 = "1970-01-01T00:00:00.000Z".
Proof. reflexivity. Qed.
Example iso1 : toISOString 1730563199999 = "2024-11-02T15:59:59.999Z".
Proof. reflexivity. Qed.
Example iso2 : toISOString 951782400000 = "2000-02-29T00:00:00.000Z".
Proof. reflexivity. Qed.
Example iso3 : toISOString (-1) = "1969-12-31T23:59:59.999Z".
Proof. reflexivity. Qed.
Example iso4 : toISOString 253402300800000 = "+010000-01-01T00:00:00.000Z".
Proof. reflexivity. Qed.
Example iso5 : toISOString (-62198755200000) = "-000001-01-01T00:00:00.000Z".
Proof. reflexivity. Qed.
Example up1 : toUpperCase (substring "3f9a0c1e-7b2d-4e5f-8a6b-0123456789ab" 0 6) = "3F9A0C".
Proof. reflexivity. Qed.
Example rep1 : replace "Bearer " "" "Bearer abc" = "abc".
Proof. reflexivity. Qed.
Example rep2 : replace "Bearer " "" "xBearer Bearer y" = "xBearer y".
Proof. reflexivity. Qed.

(** ** How the handlers run *)

Ltac unfold_handler :=
  unfold findOne, find, findOneAndUpdate, save_user, save_session,
    save_attendance, save_note, emit, gets, modify, send, throw, try_catch,
    mbind, Handler_bind, bind, mret, Handler_ret, ret in *.

Section Running.
Context {ext : Externals}.

Lemma authenticate_caller {B} (req : Request B) w :
  authenticate req w =
    (match caller req w with
     | Some u => Next u
     | None =>
         Thrown (match Authorization req with
                 | None => TypeError
                 | Some header =>
                     match jwt_verify (replace "Bearer " "" header) with
                     | None => JsonWebTokenError
                     | Some _ => Error
                     end
                 end)
     end, w).
Proof.
  unfold authenticate, caller. unfold_handler.
  destruct (Authorization req) as [header|]; [|done].
  destruct (jwt_verify _) as [decoded|]; [|done].
  by destruct (list_find _ _) as [[i u]|].
Qed.

Lemma authenticate_Next {B} (req : Request B) w u w' :
  authenticate req w = (Next u, w') → caller req w = Some u ∧ w' = w.
Proof.
  rewrite authenticate_caller.
  destruct (caller req w); intros [=]; by subst.
Qed.

Lemma caller_stored {B} (req : Request B) w u :
  caller req w = Some u → u ∈ users w.
Proof.
  unfold caller. destruct (Authorization req); [|done].
  destruct (jwt_verify _); [|done].
  destruct (list_find _ _) as [[i v]|] eqn:E; intros [=]; subst.
  apply list_find_Some in E as (E & _). by eapply list_elem_of_lookup_2.
Qed.

(** The middleware reads the header and the users, nothing else. *)
Lemma caller_ext {B C} (req : Request B) (req' : Request C) w w' :
  Authorization req = Authorization req' → users w = users w' →
  caller req w = caller req' w'.
Proof. unfold caller. by intros -> ->. Qed.

Lemma auth_Some {B} (req : Request B) next w u :
  caller req w = Some u →
  auth req next w =
    try_catch (next u) (λ _, send 401 (ErrorBody "Please authenticate.")) w.
Proof.
  intros Hc. unfold auth. unfold_handler.
  by rewrite authenticate_caller, Hc.
Qed.

Lemma auth_None {B} (req : Request B) next w :
  caller req w = None →
  auth req next w =
    (Sent (mkResponse 401 (ErrorBody "Please authenticate.")), w).
Proof.
  intros Hc. unfold auth. unfold_handler.
  by rewrite authenticate_caller, Hc.
Qed.

End Running.

(** ** What each session / attendance route does *)

Section Characterisations.
Context {ext : Externals}.

Lemma mark_attendance_unauthenticated env req w :
  caller req w = None →
  mark_attendance env req w =
    (Sent (mkResponse 401 (ErrorBody "Please authenticate.")), w).
Proof. intros Hc. unfold mark_attendance. by rewrite auth_None. Qed.

Lemma mark_attendance_run env req w user :
  caller req w = Some user →
  mark_attendance env req w =
    let code := MarkBody.sessionId (body req) in
    match list_find (active_with code) (sessions w) with
    | None => (Sent (mkResponse 404 (ErrorBody "Session not active")), w)
    | Some (_, session) =>
        match list_find (marked_by code (User._id user)) (attendances w) with
        | Some _ => (Sent (mkResponse 400 (ErrorBody "Already marked")), w)
        | None =>
            let a := check_in env (body req) user in
            (Sent (mkResponse 201
                     (Marked true "Attendance marked"
                        (Session.sessionId session) (Session.subject session)
                        (toISOString (now env)) a)),
             set_emitted
               (emitted w ++ [mkEmitted code "attendance_marked" a])
               (set_attendances (attendances w ++ [a]) w))
        end
    end.
Proof.
  intros Hc. unfold mark_attendance. rewrite (auth_Some _ _ _ _ Hc).
  unfold_handler. cbn.
  change (list_find _ (sessions w))
    with (list_find (active_with (MarkBody.sessionId (body req))) (sessions w)).
  destruct (list_find (active_with _) _) as [[i s]|]; cbn; [|done].
  change (list_find _ (attendances w))
    with (list_find (marked_by (MarkBody.sessionId (body req))
                               (User._id user)) (attendances w)).
  by destruct (list_find (marked_by _ _) _) as [[j a]|].
Qed.

Lemma start_session_run env req w :
  start_session env req w =
    match caller req w with
    | None => (Sent (mkResponse 401 (ErrorBody "Please authenticate.")), w)
    | Some user =>
        let s :=
          Session.mk (fresh_id env) (toUpperCase (substring (uuid env) 0 6))
            (User._id user) (StartBody.subject (body req))
            (mkLocation (StartBody.latitude (body req))
                        (StartBody.longitude (body req)))
            (now env) None true in
        (Sent (mkResponse 201 (SessionBody s)),
         set_sessions (sessions w ++ [s]) w)
    end.
Proof.
  unfold start_session. destruct (caller req w) as [user|] eqn:Hc.
  - by rewrite (auth_Some _ _ _ _ Hc).
  - by rewrite auth_None.
Qed.

Lemma end_session_run env req w :
  end_session env req w =
    match caller req w with
    | None => (Sent (mkResponse 401 (ErrorBody "Please authenticate.")), w)
    | Some user =>
        match list_find (endable (EndBody.sessionId (body req))
                                 (User._id user)) (sessions w) with
        | None => (Sent (mkResponse 404 (ErrorBody "Session not found")), w)
        | Some (i, s) =>
            (Sent (mkResponse 200 (SessionBody (ended (now env) s))),
             set_sessions (<[i := ended (now env) s]> (sessions w)) w)
        end
    end.
Proof.
  unfold end_session. destruct (caller req w) as [user|] eqn:Hc.
  - rewrite (auth_Some _ _ _ _ Hc). unfold_handler.
    change (list_find _ (sessions w))
      with (list_find (endable (EndBody.sessionId (body req))
                               (User._id user)) (sessions w)).
    by destruct (list_find (endable _ _) _) as [[i s]|].
  - by rewrite auth_None.
Qed.

Lemma session_attendance_run req w :
  session_attendance req w =
    match caller req w with
    | None => (Sent (mkResponse 401 (ErrorBody "Please authenticate.")), w)
    | Some _ =>
        (Sent (mkResponse 200
                 (AttendanceBody
                    (filter (λ a, Attendance.sessionId a
                                  = Params.sessionId (body req))
                            (attendances w)))), w)
    end.
Proof.
  unfold session_attendance. destruct (caller req w) as [user|] eqn:Hc.
  - by rewrite (auth_Some _ _ _ _ Hc).
  - by rewrite auth_None.
Qed.

Lemma attendance_history_run req w :
  attendance_history req w =
    match caller req w with
    | None => (Sent (mkResponse 401 (ErrorBody "Please authenticate.")), w)
    | Some user =>
        let attendanceMap : gmap string Attendance.t :=
          foldl (λ m att, <[Attendance.sessionId att := att]> m) ∅
            (filter (λ a, Attendance.studentId a = User._id user)
                    (attendances w)) in
        (Sent (mkResponse 200
                 (HistoryBody
                    (map (history_entry attendanceMap)
                       (merge_sort later
                          (filter (λ s, Session.active s = false)
                                  (sessions w)))))), w)
    end.
Proof.
  unfold attendance_history. destruct (caller req w) as [user|] eqn:Hc.
  - by rewrite (auth_Some _ _ _ _ Hc).
  - by rewrite auth_None.
Qed.

End Characterisations.

(** ** Checking in *)

Section MarkAttendance.
Context {ext : Externals}.

Lemma list_find_None_filter {A} (P : A → Prop) `{∀ x, Decision (P x)} l :
  list_find P l = None ↔ filter P l = [].
Proof.
  rewrite list_find_None. induction l as [|x l IH]; [done|].
  rewrite Forall_cons, filter_cons, IH.
  destruct (decide (P x)); [split; [tauto|done]|tauto].
Qed.

(** C1. A successful check-in followed by a second one from the same
    student for the same code: the second is answered 400 "Already
    marked", writes nothing, and the store holds exactly one record for
    the pair. *)
Theorem mark_attendance_twice env1 env2 req1 req2 w w1 r T T' :
  caller req1 w = Some T →
  mark_attendance env1 req1 w = (Sent r, w1) →
  status r = 201%nat →
  caller req2 w1 = Some T' →
  User._id T' = User._id T →
  MarkBody.sessionId (body req2) = MarkBody.sessionId (body req1) →
  mark_attendance env2 req2 w1
    = (Sent (mkResponse 400 (ErrorBody "Already marked")), w1)
  ∧ length (filter (marked_by (MarkBody.sessionId (body req1)) (User._id T))
                   (attendances w1)) = 1%nat.
Proof.
  intros Hc1 Hrun Hok Hc2 Hid Hcode.
  rewrite (mark_attendance_run _ _ _ _ Hc1) in Hrun. cbn zeta in Hrun.
  rewrite (mark_attendance_run _ _ _ _ Hc2). cbn zeta.
  rewrite Hcode, Hid.
  destruct (list_find (active_with _) (sessions w)) as [[i s]|] eqn:Hs;
    [|by injection Hrun as <- <-].
  destruct (list_find (marked_by _ _) (attendances w)) as [[j a]|] eqn:Ha;
    [by injection Hrun as <- <-|].
  injection Hrun as <- <-.
  cbn [sessions attendances set_emitted set_attendances]. rewrite Hs.
  set (a := check_in env1 (body req1) T).
  assert (Hm : marked_by (MarkBody.sessionId (body req1)) (User._id T) a)
    by done.
  destruct (list_find _ (attendances w ++ [a])) as [[j b]|] eqn:Hb.
  - split; [done|].
    apply list_find_None_filter in Ha.
    rewrite filter_app, Ha, filter_cons_True by done.
    by rewrite filter_nil.
  - apply list_find_None, Forall_app in Hb as [_ Hb].
    rewrite Forall_singleton in Hb. by destruct Hb.
Qed.

(** C2. With no active session under the code (the code is unknown, or
    every session that carries it has ended) a check-in is answered 404
    "Session not active" and the world is left as it was. *)
Theorem mark_attendance_not_active env req w T :
  caller req w = Some T →
  Forall (λ s, Session.sessionId s = MarkBody.sessionId (body req)
               → Session.active s = false) (sessions w) →
  mark_attendance env req w
    = (Sent (mkResponse 404 (ErrorBody "Session not active")), w).
Proof.
  intros Hc Hnone. rewrite (mark_attendance_run _ _ _ _ Hc). cbn zeta.
  destruct (list_find _ _) as [[i s]|] eqn:Hs; [|done].
  apply list_find_Some in Hs as (Hi & [Hcode Hact] & _).
  apply list_elem_of_lookup_2 in Hi.
  rewrite Forall_forall in Hnone. specialize (Hnone s Hi Hcode).
  congruence.
Qed.

End MarkAttendance.

Lemma mark_attendance_twice_witness :
  mark_attendance (ext := Demo.ext) Demo.env4
    (Demo.request "bao" (MarkBody.mk "AB12CD" None (Some 7.5%float)))
    Demo.checked_in
  = (Sent (mkResponse 400 (ErrorBody "Already marked")), Demo.checked_in)
  ∧ length (filter (marked_by "AB12CD" 2%N) (attendances Demo.checked_in))
    = 1%nat.
Proof.
  apply (mark_attendance_twice (ext := Demo.ext) Demo.env2 Demo.env4
           (Demo.request "bao" (MarkBody.mk "AB12CD" (Some 48.5%float) None))
           (Demo.request "bao" (MarkBody.mk "AB12CD" None (Some 7.5%float)))
           Demo.opened Demo.checked_in
           (mkResponse 201
              (Marked true "Attendance marked" "AB12CD" (Some "Algebra")
                 "1970-01-01T00:00:02.000Z"
                 (Attendance.mk 102 "AB12CD" 2 (Some "Bao") (Some "S-7")
                    (mkLocation (Some 48.5%float) None) 2000
                    (Some "Bao.png"))))
           Demo.bao Demo.bao); vm_compute; reflexivity.
Defined.

Lemma mark_attendance_not_active_witness :
  mark_attendance (ext := Demo.ext) Demo.env4
    (Demo.request "bao" (MarkBody.mk "AB12CD" None None)) Demo.closed
  = (Sent (mkResponse 404 (ErrorBody "Session not active")), Demo.closed).
Proof.
  apply (mark_attendance_not_active (ext := Demo.ext) Demo.env4
           (Demo.request "bao" (MarkBody.mk "AB12CD" None None))
           Demo.closed Demo.bao).
  - vm_compute; reflexivity.
  - repeat constructor.
Defined.

(** ** Opening a session *)

Section StartSession.
Context {ext : Externals}.

Lemma upper_hex c : is_hex c = true → is_upper_alnum (upper c) = true.
Proof.
  destruct c as [[] [] [] [] [] [] [] []]; vm_compute; congruence.
Qed.

Lemma uuid_code u :
  uuid_format u = true → code_format (toUpperCase (substring u 0 6)) = true.
Proof.
  unfold uuid_format, code_format, substring.
  destruct u as [|c0 [|c1 [|c2 [|c3 [|c4 [|c5 u]]]]]];
    try (cbn [uuid_from Nat.eqb orb]; rewrite ?andb_false_r; discriminate).
  cbn [uuid_from Nat.eqb orb]. rewrite !andb_true_iff.
  intros (H0 & H1 & H2 & H3 & H4 & H5 & _).
  cbn [Nat.sub String.substring toUpperCase String.length Nat.eqb
       list_ascii_of_string forallb andb].
  replace (String.substring 0 0 u) with EmptyString by (by destruct u).
  by rewrite !upper_hex.
Qed.

Lemma start_session_json_run env req w :
  start_session_json env req w =
    match caller req w with
    | None => (Sent (mkResponse 401 (ErrorBody "Please authenticate.")), w)
    | Some user =>
        match StartJson.typed (body req) with
        | Some b => start_session env (mkRequest (Authorization req) b) w
        | None => (Sent ValidationFailed, w)
        end
    end.
Proof.
  unfold start_session_json, StartJson.typed.
  destruct (caller req w) as [user|] eqn:Hc; [|by rewrite auth_None].
  rewrite (auth_Some _ _ _ _ Hc).
  unfold_handler. cbn zeta.
  destruct (cast (StartJson.subject (body req))) as [su|],
           (cast (StartJson.latitude (body req))) as [la|],
           (cast (StartJson.longitude (body req))) as [lo|]; try done.
  rewrite start_session_run.
  by rewrite (caller_ext (mkRequest (Authorization req) (StartBody.mk su la lo))
                req w w eq_refl eq_refl), Hc.
Qed.

(** C5, as amended.  With a well-formed [uuidv4()]: an authenticated
    caller whose subject, latitude and longitude pass the cast to the
    types of the schema (or are not sent) always gets 201 and a new
    stored session, with the first six characters of the identifier in
    upper case as its code (six upper-case alphanumeric characters),
    [active = true], [startTime = now], no end time, owned by the caller
    and carrying the body's subject and location; the answer does not
    depend on what is stored (no look-up of the codes in use).  An
    authenticated caller with a field that fails the cast gets 400, and
    an unauthenticated caller 401; in both cases nothing is stored. *)
Theorem start_session_succeeds env req w :
  uuid_format (uuid env) = true →
  match caller req w with
  | Some T =>
      match StartJson.typed (body req) with
      | Some b =>
          ∃ s, start_session_json env req w
               = (Sent (mkResponse 201 (SessionBody s)),
                  set_sessions (sessions w ++ [s]) w)
            ∧ Session.sessionId s = toUpperCase (substring (uuid env) 0 6)
            ∧ code_format (Session.sessionId s) = true
            ∧ Session.active s = true
            ∧ Session.startTime s = now env
            ∧ Session.endTime s = None
            ∧ Session.teacherId s = User._id T
            ∧ Session.subject s = StartBody.subject b
            ∧ Session.location s
              = mkLocation (StartBody.latitude b) (StartBody.longitude b)
            ∧ ∀ w', caller req w' = Some T →
                    fst (start_session_json env req w')
                    = Sent (mkResponse 201 (SessionBody s))
      | None =>
          start_session_json env req w = (Sent ValidationFailed, w)
      end
  | None =>
      start_session_json env req w
      = (Sent (mkResponse 401 (ErrorBody "Please authenticate.")), w)
  end.
Proof.
  intros Hu. rewrite start_session_json_run.
  destruct (caller req w) as [T|] eqn:Hc; [|done].
  destruct (StartJson.typed (body req)) as [b|] eqn:Hb; [|done].
  rewrite start_session_run.
  rewrite (caller_ext (mkRequest (Authorization req) b) req w w
             eq_refl eq_refl), Hc.
  eexists. split; [reflexivity|]. cbn.
  split; [done|]. split; [by apply uuid_code|]. do 6 (split; [done|]).
  intros w' Hc'. rewrite start_session_json_run, Hc', Hb, start_session_run.
  by rewrite (caller_ext (mkRequest (Authorization req) b) req w' w'
                eq_refl eq_refl), Hc'.
Qed.

End StartSession.

Lemma start_session_succeeds_witness :
  ∃ s, start_session_json (ext := Demo.ext) Demo.env2
         (Demo.request "ada" Demo.geometry_json) Demo.opened
       = (Sent (mkResponse 201 (SessionBody s)),
          set_sessions (sessions Demo.opened ++ [s]) Demo.opened)
    ∧ Session.sessionId s = "AB12CD"
    ∧ code_format (Session.sessionId s) = true
    ∧ Session.active s = true
    ∧ Session.startTime s = 2000
    ∧ Session.endTime s = None
    ∧ Session.teacherId s = 1%N
    ∧ Session.subject s = Some "Geometry"
    ∧ Session.location s = mkLocation None None
    ∧ ∀ w', caller (ext := Demo.ext)
              (Demo.request "ada" Demo.geometry_json) w'
            = Some Demo.ada →
            fst (start_session_json (ext := Demo.ext) Demo.env2
                   (Demo.request "ada" Demo.geometry_json) w')
            = Sent (mkResponse 201 (SessionBody s)).
Proof.
  exact (start_session_succeeds (ext := Demo.ext) Demo.env2
           (Demo.request "ada" Demo.geometry_json) Demo.opened eq_refl).
Defined.

(** C5, as stated, fails on a body that does not pass the cast: Ada is
    authenticated and the identifier drawn is well formed, but the
    latitude sent is the text abc; saving the session is rejected, the
    route answers 400 and no session is stored. *)
Lemma start_session_cast_counterexample :
  uuid_format (uuid Demo.env2) = true
  ∧ caller (ext := Demo.ext) (Demo.request "ada" Demo.abc_json) Demo.opened
    = Some Demo.ada
  ∧ start_session_json (ext := Demo.ext) Demo.env2
      (Demo.request "ada" Demo.abc_json) Demo.opened
    = (Sent (mkResponse 400 (ExnBody ValidationError)), Demo.opened).
Proof. repeat split; vm_compute; reflexivity. Qed.

(** ** Closing a session *)

Section EndSession.
Context {ext : Externals}.

Lemma ended_inactive t s : ¬ endable (Session.sessionId s) (Session.teacherId s) (ended t s).
Proof. by intros (_ & _ & ?). Qed.

Lemma list_find_is_Some {A} (P : A → Prop) `{∀ x, Decision (P x)} l :
  is_Some (list_find P l) ↔ ∃ x, x ∈ l ∧ P x.
Proof.
  split.
  - intros [[i x] Hf]. apply list_find_Some in Hf as (Hi & HP & _).
    exists x. split; [by eapply list_elem_of_lookup_2|done].
  - intros (x & Hx & HP). by eapply list_find_elem_of.
Qed.

(** C4, as amended.  [end_session] answers 200 exactly when the caller
    owns an active session under the code; it then ends the first such
    session (inactive, [endTime = now]) and returns it, and otherwise
    answers 404 "Session not found" and changes nothing.  After a
    success, a second call by the same teacher for the same code leaves
    the ended session as the first call made it; it is answered 404
    when the teacher had no other active session under that code. *)
Theorem end_session_first_match env env' req w T :
  caller req w = Some T →
  ((∃ s, s ∈ sessions w ∧ endable (EndBody.sessionId (body req)) (User._id T) s)
   ↔ ∃ s1 w1, end_session env req w
              = (Sent (mkResponse 200 (SessionBody s1)), w1))
  ∧ ((¬ ∃ s, s ∈ sessions w
             ∧ endable (EndBody.sessionId (body req)) (User._id T) s) →
     end_session env req w
     = (Sent (mkResponse 404 (ErrorBody "Session not found")), w))
  ∧ ∀ i s,
      list_find (endable (EndBody.sessionId (body req)) (User._id T))
                (sessions w) = Some (i, s) →
      end_session env req w
      = (Sent (mkResponse 200 (SessionBody (ended (now env) s))),
         set_sessions (<[i := ended (now env) s]> (sessions w)) w)
      ∧ Session.active (ended (now env) s) = false
      ∧ Session.endTime (ended (now env) s) = Some (now env)
      ∧ sessions (snd (end_session env' req
                         (set_sessions (<[i := ended (now env) s]> (sessions w)) w)))
          !! i = Some (ended (now env) s)
      ∧ ((∀ j s', sessions w !! j = Some s' →
                  endable (EndBody.sessionId (body req)) (User._id T) s' →
                  j = i) →
         end_session env' req
           (set_sessions (<[i := ended (now env) s]> (sessions w)) w)
         = (Sent (mkResponse 404 (ErrorBody "Session not found")),
            set_sessions (<[i := ended (now env) s]> (sessions w)) w)).
Proof.
  intros Hc.
  set (P := endable (EndBody.sessionId (body req)) (User._id T)).
  rewrite end_session_run, Hc. fold P.
  assert (Hex : (∃ s, s ∈ sessions w ∧ P s)
                ↔ is_Some (list_find P (sessions w)))
    by (symmetry; apply list_find_is_Some).
  rewrite Hex. clear Hex.
  destruct (list_find P (sessions w)) as [[i0 s0]|] eqn:Hf0.
  2:{ split; [|split].
      - split; [by intros [? ?]|by intros (? & ? & ?)].
      - done.
      - by intros ? ? ?. }
  split; [|split].
  - split; intros _; [by do 2 eexists|by eexists].
  - intros []. by eexists.
  - intros i s [= <- <-].
    pose proof Hf0 as (Hi & HP & Hbefore)%list_find_Some.
    rename i0 into i, s0 into s.
    set (s1 := ended (now env) s).
    set (w1 := set_sessions (<[i := s1]> (sessions w)) w).
    assert (Hc1 : caller req w1 = Some T)
      by (by rewrite <- Hc; apply caller_ext).
    assert (Hlt : (i < length (sessions w))%nat)
      by (by eapply lookup_lt_Some).
    assert (Hs1 : ¬ P s1) by (by intros (_ & _ & ?)).
    split; [done|]. split; [done|]. split; [done|]. split.
    + rewrite end_session_run, Hc1. fold P.
      destruct (list_find P (sessions w1)) as [[j s2]|] eqn:Hf1; cbn.
      * apply list_find_Some in Hf1 as (Hj & HP2 & _).
        cbn in Hj. destruct (decide (j = i)) as [->|Hne].
        -- rewrite list_lookup_insert_eq in Hj by done.
           injection Hj as <-. by destruct Hs1.
        -- rewrite list_lookup_insert_ne by done.
           by rewrite list_lookup_insert_eq.
      * by rewrite list_lookup_insert_eq.
    + intros Honly. rewrite end_session_run, Hc1. fold P.
      destruct (list_find P (sessions w1)) as [[j s2]|] eqn:Hf1; [|done].
      apply list_find_Some in Hf1 as (Hj & HP2 & _).
      cbn in Hj. destruct (decide (j = i)) as [->|Hne].
      * rewrite list_lookup_insert_eq in Hj by done.
        injection Hj as <-. by destruct Hs1.
      * rewrite list_lookup_insert_ne in Hj by done.
        by destruct Hne; eapply Honly.
Qed.

End EndSession.

Lemma end_session_first_match_witness :
  end_session (ext := Demo.ext) Demo.env3
    (Demo.request "ada" (EndBody.mk "AB12CD")) Demo.checked_in
  = (Sent (mkResponse 200
             (SessionBody
                (Session.mk 101 "AB12CD" 1 (Some "Algebra")
                   (mkLocation (Some 48.5%float) (Some 2.25%float))
                   1000 (Some 3000) false))),
     Demo.closed)
  ∧ end_session (ext := Demo.ext) Demo.env4
      (Demo.request "ada" (EndBody.mk "AB12CD")) Demo.closed
    = (Sent (mkResponse 404 (ErrorBody "Session not found")), Demo.closed).
Proof.
  destruct (end_session_first_match (ext := Demo.ext) Demo.env3 Demo.env4
              (Demo.request "ada" (EndBody.mk "AB12CD")) Demo.checked_in
              Demo.ada eq_refl) as (_ & _ & H).
  destruct (H 0%nat
              (Session.mk 101 "AB12CD" 1 (Some "Algebra")
                 (mkLocation (Some 48.5%float) (Some 2.25%float))
                 1000 None true) eq_refl) as (H1 & _ & _ & _ & H2).
  split; [exact H1|]. apply H2.
  intros [|[|j]] s'; vm_compute; [done|discriminate|discriminate].
Defined.

(** C4, as stated, fails when the teacher has two active sessions under
    one code.  Such a world arises from the routes themselves: Ada opens
    two sessions and the two identifiers drawn share their first six
    characters.  The first call then ends the older session, and the
    second call, with the same teacher and code, is answered 200 and ends
    the other one. *)
Lemma end_session_twice_counterexample :
  uuid_format (uuid Demo.env1) = true
  ∧ uuid_format (uuid Demo.env2) = true
  ∧ rtc (step (ext := Demo.ext)) Demo.school Demo.collided
  ∧ fst (end_session (ext := Demo.ext) Demo.env3
           (Demo.request "ada" (EndBody.mk "AB12CD")) Demo.collided)
    = Sent (mkResponse 200
              (SessionBody
                 (Session.mk 101 "AB12CD" 1 (Some "Algebra")
                    (mkLocation (Some 48.5%float) (Some 2.25%float))
                    1000 (Some 3000) false)))
  ∧ fst (end_session (ext := Demo.ext) Demo.env4
           (Demo.request "ada" (EndBody.mk "AB12CD"))
           (snd (end_session (ext := Demo.ext) Demo.env3
                   (Demo.request "ada" (EndBody.mk "AB12CD")) Demo.collided)))
    = Sent (mkResponse 200
              (SessionBody
                 (Session.mk 102 "AB12CD" 1 (Some "Geometry")
                    (mkLocation None None) 2000 (Some 4000) false))).
Proof.
  split; [done|]. split; [done|]. split.
  - eapply rtc_l.
    { by exists (PostStartSession Demo.env1
                   (Demo.request "ada"
                      (StartBody.mk (Some "Algebra") (Some 48.5%float)
                                    (Some 2.25%float)))). }
    eapply rtc_l; [|apply rtc_refl].
    by exists (PostStartSession Demo.env2
                 (Demo.request "ada" (StartBody.mk (Some "Geometry") None None))).
  - split; vm_compute; reflexivity.
Qed.

(** ** The life of a session *)

Section Lifecycle.
Context {ext : Externals}.

(** Only two routes write to the sessions: one appends an active
    session, the other ends the first active session the caller owns
    under the code. *)
Lemma run_sessions c w :
  sessions (snd (run c w)) = sessions w
  ∨ (∃ env req T s,
       c = PostStartSession env req ∧ caller req w = Some T
       ∧ Session.active s = true ∧ Session.endTime s = None
       ∧ Session.teacherId s = User._id T
       ∧ sessions (snd (run c w)) = (sessions w ++ [s])%list)
  ∨ (∃ env req T i s,
       c = PostEndSession env req ∧ caller req w = Some T
       ∧ sessions w !! i = Some s
       ∧ endable (EndBody.sessionId (body req)) (User._id T) s
       ∧ sessions (snd (run c w)) = <[i := ended (now env) s]> (sessions w)).
Proof.
  destruct c as [env req|req|req|env req|req|env req|req|env req|env req|req|];
    cbn [run].
  - left. unfold register. unfold_handler.
    by repeat case_match; simplify_eq.
  - left. unfold login. unfold_handler.
    by repeat case_match; simplify_eq.
  - left. unfold me. destruct (caller req w) eqn:Hc;
      [by rewrite (auth_Some _ _ _ _ Hc)|by rewrite auth_None].
  - left. unfold post_notes. destruct (caller req w) eqn:Hc;
      [by rewrite (auth_Some _ _ _ _ Hc)|by rewrite auth_None].
  - left. unfold get_notes. destruct (caller req w) eqn:Hc;
      [by rewrite (auth_Some _ _ _ _ Hc)|by rewrite auth_None].
  - left. destruct (caller req w) eqn:Hc.
    + rewrite (mark_attendance_run _ _ _ _ Hc). cbn zeta.
      by repeat case_match.
    + by rewrite mark_attendance_unauthenticated.
  - left. rewrite attendance_history_run. by case_match.
  - rewrite start_session_run. destruct (caller req w) as [T|] eqn:Hc;
      [|by left].
    right; left.
    by exists env, req, T,
      (Session.mk (fresh_id env) (toUpperCase (substring (uuid env) 0 6))
         (User._id T) (StartBody.subject (body req))
         (mkLocation (StartBody.latitude (body req))
                     (StartBody.longitude (body req)))
         (now env) None true).
  - rewrite end_session_run. destruct (caller req w) as [T|] eqn:Hc;
      [|by left].
    destruct (list_find _ _) as [[i s]|] eqn:Hf; [|by left].
    right; right. apply list_find_Some in Hf as (Hi & HP & _).
    by eexists env, req, T, i, s.
  - left. rewrite session_attendance_run. by case_match.
  - by left.
Qed.

Lemma run_session_kept c w i s :
  sessions w !! i = Some s →
  ∃ s', sessions (snd (run c w)) !! i = Some s' ∧ evolves s s'.
Proof.
  intros Hi.
  destruct (run_sessions c w)
    as [->|[(env & req & T & s0 & _ & _ & _ & _ & _ & ->)
           |(env & req & T & j & s0 & _ & _ & Hj & HP & ->)]].
  - exists s. split; [done|by left].
  - exists s. split; [by apply lookup_app_l_Some|by left].
  - destruct (decide (i = j)) as [->|Hne].
    + exists (ended (now env) s0).
      rewrite list_lookup_insert_eq by (by eapply lookup_lt_Some).
      split; [done|]. right. simplify_eq. destruct HP as (_ & _ & ?).
      split; [done|by eexists].
    + exists s. rewrite list_lookup_insert_ne by done.
      split; [done|by left].
Qed.

Lemma steps_session_kept w w' i s :
  rtc step w w' → sessions w !! i = Some s →
  ∃ s', sessions w' !! i = Some s' ∧ evolves s s'.
Proof.
  intros Hsteps. revert s.
  induction Hsteps as [w|w w1 w' [c <-] _ IH]; intros s Hi.
  - exists s. split; [done|by left].
  - destruct (run_session_kept c w i s Hi) as (s1 & Hi1 & Hev1).
    destruct (IH s1 Hi1) as (s' & Hi' & Hev').
    exists s'. split; [done|].
    destruct Hev1 as [->|(Hact & t & ->)]; [done|].
    destruct Hev' as [->|(Hact' & _)]; [|done].
    right. split; [done|by eexists].
Qed.

(** C7. Sessions only ever go from active to ended.  (1) A session that
    appears in the store was put there by [start_session], active and
    without end time.  (2) A stored session that a request changes was
    active, is owned by the caller of [end_session], and becomes
    inactive with [endTime = now], nothing else changing.  (3) Over any
    sequence of requests an ended session stays exactly as it is, and
    (4) every stored session stays stored, unchanged or ended. *)
Theorem session_lifecycle :
  (∀ c w i s,
     sessions w !! i = None → sessions (snd (run c w)) !! i = Some s →
     Session.active s = true ∧ Session.endTime s = None
     ∧ ∃ env req, c = PostStartSession env req)
  ∧ (∀ c w i s s',
       sessions w !! i = Some s → sessions (snd (run c w)) !! i = Some s' →
       s' ≠ s →
       ∃ env req T,
         c = PostEndSession env req ∧ caller req w = Some T
         ∧ Session.teacherId s = User._id T
         ∧ Session.active s = true
         ∧ s' = ended (now env) s
         ∧ Session.active s' = false ∧ Session.endTime s' = Some (now env))
  ∧ (∀ w w' i s,
       rtc step w w' → sessions w !! i = Some s → Session.active s = false →
       sessions w' !! i = Some s)
  ∧ (∀ w w' i s,
       rtc step w w' → sessions w !! i = Some s →
       ∃ s', sessions w' !! i = Some s' ∧ evolves s s').
Proof.
  split; [|split; [|split]].
  - intros c w i s Hnone Hi.
    destruct (run_sessions c w)
      as [Heq|[(env & req & T & s0 & -> & _ & Hact & Hend & _ & Heq)
             |(env & req & T & j & s0 & _ & _ & _ & _ & Heq)]];
      rewrite Heq in Hi.
    + congruence.
    + rewrite lookup_app_r in Hi by (by apply lookup_ge_None).
      apply list_lookup_singleton_Some in Hi as [_ <-]. eauto.
    + apply lookup_ge_None in Hnone.
      rewrite lookup_ge_None_2 in Hi; [done|by rewrite length_insert].
  - intros c w i s s' Hi Hi' Hne.
    destruct (run_sessions c w)
      as [Heq|[(env & req & T & s0 & _ & _ & _ & _ & _ & Heq)
             |(env & req & T & j & s0 & -> & Hc & Hj & HP & Heq)]];
      rewrite Heq in Hi'.
    + congruence.
    + rewrite lookup_app_l in Hi' by (by eapply lookup_lt_Some). congruence.
    + destruct (decide (i = j)) as [->|Hij].
      * rewrite list_lookup_insert_eq in Hi' by (by eapply lookup_lt_Some).
        simplify_eq. destruct HP as (_ & ? & ?).
        by exists env, req, T.
      * rewrite list_lookup_insert_ne in Hi' by done. congruence.
  - intros w w' i s Hsteps Hi Hact.
    destruct (steps_session_kept w w' i s Hsteps Hi)
      as (s' & Hi' & [->|(Hact' & _)]); [done|congruence].
  - apply steps_session_kept.
Qed.

(** Only a check-in writes to the attendance records: it appends one
    record, for a pair that has none. *)
Lemma run_attendances_cases c w :
  attendances (snd (run c w)) = attendances w
  ∨ ∃ a,
      list_find (marked_by (Attendance.sessionId a) (Attendance.studentId a))
                (attendances w) = None
      ∧ attendances (snd (run c w)) = (attendances w ++ [a])%list.
Proof.
  destruct c as [env req|req|req|env req|req|env req|req|env req|env req|req|];
    cbn [run].
  - left. unfold register. unfold_handler.
    by repeat case_match; simplify_eq.
  - left. unfold login. unfold_handler.
    by repeat case_match; simplify_eq.
  - left. unfold me. destruct (caller req w) eqn:Hc;
      [by rewrite (auth_Some _ _ _ _ Hc)|by rewrite auth_None].
  - left. unfold post_notes. destruct (caller req w) eqn:Hc;
      [by rewrite (auth_Some _ _ _ _ Hc)|by rewrite auth_None].
  - left. unfold get_notes. destruct (caller req w) eqn:Hc;
      [by rewrite (auth_Some _ _ _ _ Hc)|by rewrite auth_None].
  - destruct (caller req w) as [T|] eqn:Hc.
    + rewrite (mark_attendance_run _ _ _ _ Hc). cbn zeta.
      destruct (list_find _ (sessions w)) as [[i s]|]; [|by left].
      destruct (list_find _ (attendances w)) as [[j b]|] eqn:Ha; [by left|].
      right. by exists (check_in env (body req) T).
    + left. by rewrite mark_attendance_unauthenticated.
  - left. rewrite attendance_history_run. by case_match.
  - left. rewrite start_session_run. by case_match.
  - left. rewrite end_session_run. by repeat case_match.
  - left. rewrite session_attendance_run. by case_match.
  - by left.
Qed.

(** Attendance records are only ever appended. *)
Lemma run_attendances c w :
  attendances w `prefix_of` attendances (snd (run c w)).
Proof.
  destruct (run_attendances_cases c w) as [->|(a & _ & ->)];
    [done|by apply prefix_app_r].
Qed.

(** The pre-insert existence check keeps the pairs unique. *)
Lemma run_unique_marks c w :
  unique_marks (attendances w) → unique_marks (attendances (snd (run c w))).
Proof.
  intros Hu.
  destruct (run_attendances_cases c w) as [->|(a & Hnone & ->)]; [done|].
  intros code student. unfold records_of. rewrite filter_app, length_app.
  destruct (decide (marked_by code student a)) as [[<- <-]|Hno].
  - apply list_find_None_filter in Hnone. rewrite Hnone.
    rewrite filter_cons_True by done. by rewrite filter_nil.
  - rewrite (filter_cons_False _ a) by done. rewrite filter_nil.
    specialize (Hu code student). unfold records_of in Hu. cbn. lia.
Qed.

Lemma steps_unique_marks w w' :
  rtc step w w' →
  unique_marks (attendances w) → unique_marks (attendances w').
Proof.
  induction 1 as [w|w w1 w' [c <-] _ IH]; [done|].
  intros Hu. by apply IH, run_unique_marks.
Qed.

End Lifecycle.

(** ** Errors write nothing *)

Section Atomicity.
Context {ext : Externals}.

(** C8. Each of the three writing routes always sends a response.  It
    is either the success status, or one of the route's errors
    (Unauthenticated, SessionNotActive, AlreadyMarked, NotFound); and
    whenever the status is an error status the world after the call is
    the world before it: sessions, attendance records and everything
    else. *)
Theorem errors_change_nothing :
  (∀ env req w, ∃ r w',
     mark_attendance env req w = (Sent r, w')
     ∧ (status r = 201%nat
        ∨ r = Unauthenticated ∨ r = SessionNotActive ∨ r = AlreadyMarked)
     ∧ (failed r → w' = w))
  ∧ (∀ env req w, ∃ r w',
       end_session env req w = (Sent r, w')
       ∧ (status r = 200%nat ∨ r = Unauthenticated ∨ r = NotFound)
       ∧ (failed r → w' = w))
  ∧ (∀ env req w, ∃ r w',
       start_session env req w = (Sent r, w')
       ∧ (status r = 201%nat ∨ r = Unauthenticated)
       ∧ (failed r → w' = w)).
Proof.
  unfold failed. split; [|split]; intros env req w.
  - destruct (caller req w) as [T|] eqn:Hc.
    + rewrite (mark_attendance_run _ _ _ _ Hc). cbn zeta.
      destruct (list_find _ (sessions w)) as [[i s]|].
      * destruct (list_find _ (attendances w)) as [[j a]|].
        -- eexists _, _. split; [done|]. split; [by do 3 right|done].
        -- eexists _, _. split; [done|]. split; [by left|]. cbn. lia.
      * eexists _, _. split; [done|]. split; [by right; right; left|done].
    + rewrite mark_attendance_unauthenticated by done.
      eexists _, _. split; [done|]. split; [by right; left|done].
  - rewrite end_session_run. destruct (caller req w) as [T|].
    + destruct (list_find _ _) as [[i s]|].
      * eexists _, _. split; [done|]. split; [by left|]. cbn. lia.
      * eexists _, _. split; [done|]. split; [by do 2 right|done].
    + eexists _, _. split; [done|]. split; [by right; left|done].
  - rewrite start_session_run. destruct (caller req w) as [T|].
    + eexists _, _. split; [done|]. split; [by left|]. cbn. lia.
    + eexists _, _. split; [done|]. split; [by right|done].
Qed.

End Atomicity.

(** ** The history of a student *)

Section History.
Context {ext : Externals}.

#[local] Instance later_total : Total later.
Proof. intros a b. unfold later. lia. Qed.
#[local] Instance later_trans : Transitive later.
Proof. intros a b c. unfold later. lia. Qed.

(** What the [Map] filled by [forEach] holds under a key: the last
    element of the array that carries the key. *)
Lemma attendanceMap_lookup (l : list Attendance.t) (code : string) :
  foldl (λ (m : gmap string Attendance.t) att,
           <[Attendance.sessionId att := att]> m) ∅ l !! code
  = last (filter (λ a, Attendance.sessionId a = code) l).
Proof.
  induction l as [|a l IH] using rev_ind; [done|].
  rewrite foldl_snoc, filter_app.
  destruct (decide (Attendance.sessionId a = code)) as [<-|Hne].
  - rewrite lookup_insert_eq, filter_cons_True by done.
    by rewrite filter_nil, last_snoc.
  - rewrite lookup_insert_ne, filter_cons_False by done.
    by rewrite filter_nil, app_nil_r.
Qed.

Lemma filter_student_code student code (l : list Attendance.t) :
  filter (λ a, Attendance.sessionId a = code)
         (filter (λ a, Attendance.studentId a = student) l)
  = records_of student code l.
Proof.
  unfold records_of. rewrite list_filter_filter.
  apply list_filter_iff. intros a. unfold marked_by. tauto.
Qed.

(** The entry the route builds is the entry of the specification. *)
Lemma history_entry_spec student (l : list Attendance.t) s :
  history_entry
    (foldl (λ (m : gmap string Attendance.t) att,
              <[Attendance.sessionId att := att]> m) ∅
           (filter (λ a, Attendance.studentId a = student) l)) s
  = spec_entry student l s.
Proof.
  unfold history_entry, spec_entry. cbn zeta.
  rewrite attendanceMap_lookup, filter_student_code.
  destruct (records_of student (Session.sessionId s) l) as [|a held]
    using rev_ind; [done|].
  rewrite last_snoc. by destruct held.
Qed.

Lemma attendance_history_spec req w T :
  caller req w = Some T →
  attendance_history req w
  = (Sent (mkResponse 200
             (HistoryBody
                (map (spec_entry (User._id T) (attendances w))
                     (merge_sort later
                        (filter (λ s, Session.active s = false)
                                (sessions w)))))), w).
Proof.
  intros Hc. rewrite attendance_history_run, Hc. cbn zeta.
  do 4 f_equal. apply map_ext. intros s. apply history_entry_spec.
Qed.

Lemma spec_entry_present student (l : list Attendance.t) s a :
  last (records_of student (Session.sessionId s) l) = Some a →
  spec_entry student l s
  = HistoryEntry.mk (Session.sessionId s) (Session.subject s)
      (Attendance.timestamp a) Present (Session.location s).
Proof.
  unfold spec_entry. cbn zeta. intros Hl. rewrite Hl.
  apply last_Some in Hl as [held ->]. by destruct held.
Qed.

Lemma spec_entry_absent student (l : list Attendance.t) s :
  records_of student (Session.sessionId s) l = [] →
  spec_entry student l s
  = HistoryEntry.mk (Session.sessionId s) (Session.subject s)
      (Session.startTime s) Absent (Session.location s).
Proof. unfold spec_entry. cbn zeta. by intros ->. Qed.

Lemma records_of_nil student code (l : list Attendance.t) :
  records_of student code l = []
  ↔ ¬ ∃ a, a ∈ l ∧ marked_by code student a.
Proof.
  unfold records_of. split.
  - intros Hnil (a & Ha & Hm).
    by eapply filter_nil_not_elem_of.
  - intros Hno. destruct (filter _ l) as [|a held] eqn:Hf; [done|].
    destruct Hno. exists a.
    assert (Ha : a ∈ filter (marked_by code student) l)
      by (rewrite Hf; left).
    apply list_elem_of_filter in Ha. tauto.
Qed.

(** C3. For an authenticated student the route answers 200 with one
    entry per stored session that has ended, active sessions left out,
    in descending order of start time.  The entry of a session carries
    its code, subject and location; it is [Present], dated with the
    timestamp of a record of the student under the session's code, when
    there is such a record, and [Absent], dated with the start of the
    session, when there is none.  A student without any record gets as
    many entries as there are ended sessions, all [Absent]. *)
Theorem attendance_history_report req w T :
  caller req w = Some T →
  ∃ listed,
    attendance_history req w
    = (Sent (mkResponse 200
               (HistoryBody
                  (map (spec_entry (User._id T) (attendances w)) listed))),
       w)
    ∧ listed ≡ₚ filter (λ s, Session.active s = false) (sessions w)
    ∧ StronglySorted later listed
    ∧ (∀ s,
         let e := spec_entry (User._id T) (attendances w) s in
         HistoryEntry.sessionId e = Session.sessionId s
         ∧ HistoryEntry.subject e = Session.subject s
         ∧ HistoryEntry.location e = Session.location s
         ∧ ((∃ a, a ∈ attendances w
                  ∧ marked_by (Session.sessionId s) (User._id T) a) →
            HistoryEntry.status e = Present
            ∧ ∃ a, a ∈ attendances w
                   ∧ marked_by (Session.sessionId s) (User._id T) a
                   ∧ HistoryEntry.date e = Attendance.timestamp a)
         ∧ ((¬ ∃ a, a ∈ attendances w
                    ∧ marked_by (Session.sessionId s) (User._id T) a) →
            HistoryEntry.status e = Absent
            ∧ HistoryEntry.date e = Session.startTime s))
    ∧ (Forall (λ a, Attendance.studentId a ≠ User._id T) (attendances w) →
       length (map (spec_entry (User._id T) (attendances w)) listed)
       = length (filter (λ s, Session.active s = false) (sessions w))
       ∧ Forall (λ e, HistoryEntry.status e = Absent)
                (map (spec_entry (User._id T) (attendances w)) listed)).
Proof.
  intros Hc.
  exists (merge_sort later
            (filter (λ s, Session.active s = false) (sessions w))).
  split; [by apply attendance_history_spec|].
  split; [apply merge_sort_Permutation|].
  split; [apply (StronglySorted_merge_sort later)|].
  split.
  - intros s e. do 3 (split; [done|]). split.
    + intros Hex.
      destruct (last (records_of (User._id T) (Session.sessionId s)
                                 (attendances w))) as [a|] eqn:Hl.
      * subst e. rewrite (spec_entry_present _ _ _ _ Hl).
        split; [done|]. exists a.
        apply last_Some_elem_of in Hl.
        apply list_elem_of_filter in Hl as [Hm Ha]. done.
      * apply last_None, records_of_nil in Hl. by destruct Hl.
    + intros Hno. apply records_of_nil in Hno.
      subst e. by rewrite (spec_entry_absent _ _ _ Hno).
  - intros Hnone. split.
    + by rewrite length_map, merge_sort_Permutation.
    + apply Forall_map, Forall_forall. intros s _.
      rewrite spec_entry_absent; [done|].
      apply records_of_nil. intros (a & Ha & _ & Hs).
      rewrite Forall_forall in Hnone. by apply (Hnone a).
Qed.

(** C10. The join goes by code alone.  When the student holds records
    under [code] and [a] is the last of them in the store, every ended
    session that carries [code] is listed [Present] with the timestamp
    of [a], and no entry under [code] says anything else. *)
Theorem history_joins_by_code req w T code a :
  caller req w = Some T →
  last (records_of (User._id T) code (attendances w)) = Some a →
  ∃ history,
    attendance_history req w
    = (Sent (mkResponse 200 (HistoryBody history)), w)
    ∧ (∀ s, s ∈ sessions w → Session.active s = false →
            Session.sessionId s = code →
            HistoryEntry.mk code (Session.subject s)
              (Attendance.timestamp a) Present (Session.location s)
            ∈ history)
    ∧ (∀ e, e ∈ history → HistoryEntry.sessionId e = code →
            HistoryEntry.status e = Present
            ∧ HistoryEntry.date e = Attendance.timestamp a).
Proof.
  intros Hc Hl. eexists. split; [by apply attendance_history_spec|]. split.
  - intros s Hs Hact <-.
    rewrite <- (spec_entry_present _ _ _ _ Hl).
    apply list_elem_of_fmap_2. rewrite merge_sort_Permutation.
    by apply list_elem_of_filter.
  - intros e He Hcode.
    apply list_elem_of_fmap in He as (s & -> & _).
    cbn in Hcode. subst code. by rewrite (spec_entry_present _ _ _ _ Hl).
Qed.

End History.

(** ** Dates as text *)

Lemma is_digit_digit n : is_digit (digit n) = true.
Proof.
  unfold digit.
  assert (H : 0 ≤ n mod 10 < 10) by (apply Z.mod_pos_bound; lia).
  destruct (n mod 10) as [|p|p]; [done| |lia].
  do 4 (destruct p as [p|p|]; try done; try lia).
Qed.

Lemma toISOString_iso8601 t : iso8601 (toISOString t) = true.
Proof.
  unfold toISOString, iso8601.
  destruct (civil (t `div` 86400000)) as [[y m] d].
  unfold year_string.
  destruct ((0 <=? y) && (y <=? 9999)); [|destruct (y <? 0)];
    cbv [pad String.append app after_year matches Ascii.eqb Bool.eqb andb];
    rewrite !is_digit_digit; cbn [andb orb]; by rewrite ?orb_true_r.
Qed.

(** *** What the text of a date denotes *)

Lemma all_from_spec n z :
  all_from n z = true → ∀ k, z ≤ k < z + Z.of_nat n → civil_ok k = true.
Proof.
  revert z. induction n as [|n IH]; intros z H k Hk; [lia|].
  cbn [all_from] in H. apply andb_true_iff in H as [H0 H1].
  destruct (decide (k = z)) as [->|Hne]; [done|].
  apply (IH (z + 1)); [done|lia].
Qed.

Lemma civil_ok_cycle k :
  -719468 ≤ k < -719468 + 146097 → civil_ok k = true.
Proof.
  intros Hk. apply (all_from_spec (Z.to_nat 146097) (-719468)); [|lia].
  vm_compute. reflexivity.
Qed.

Lemma leap_shift y k : leap (y + 400 * k) = leap y.
Proof.
  unfold leap.
  replace ((y + 400 * k) mod 4) with (y mod 4)
    by (rewrite <- (Z.mod_add y (100 * k) 4) by lia; f_equal; lia).
  replace ((y + 400 * k) mod 100) with (y mod 100)
    by (rewrite <- (Z.mod_add y (4 * k) 100) by lia; f_equal; lia).
  replace ((y + 400 * k) mod 400) with (y mod 400)
    by (rewrite <- (Z.mod_add y k 400) by lia; f_equal; lia).
  done.
Qed.

Lemma days_before_year_shift y k :
  days_before_year (y + 400 * k) = days_before_year y + 146097 * k.
Proof.
  unfold days_before_year.
  replace ((y + 400 * k + 3) / 4) with ((y + 3) / 4 + 100 * k)
    by (rewrite <- Z.div_add by lia; f_equal; lia).
  replace ((y + 400 * k + 99) / 100) with ((y + 99) / 100 + 4 * k)
    by (rewrite <- Z.div_add by lia; f_equal; lia).
  replace ((y + 400 * k + 399) / 400) with ((y + 399) / 400 + k)
    by (rewrite <- Z.div_add by lia; f_equal; lia).
  lia.
Qed.

Lemma day_number_shift y m d k :
  day_number (y + 400 * k) m d = day_number y m d + 146097 * k.
Proof.
  unfold day_number, days_before_month.
  rewrite days_before_year_shift, leap_shift. lia.
Qed.

Lemma civil_shift z k :
  civil (z + 146097 * k)
  = let '(y, m, d) := civil z in (y + 400 * k, m, d).
Proof.
  unfold civil. cbv zeta.
  replace ((z + 146097 * k + 719468) / 146097)
    with ((z + 719468) / 146097 + k)
    by (rewrite <- Z.div_add by lia; f_equal; lia).
  replace (z + 146097 * k + 719468 - ((z + 719468) / 146097 + k) * 146097)
    with (z + 719468 - (z + 719468) / 146097 * 146097) by lia.
  f_equal. f_equal. lia.
Qed.

(** [civil] inverts [day_number] and yields a date of the calendar. *)
Lemma civil_spec z y m d :
  civil z = (y, m, d) →
  1 ≤ m ≤ 12 ∧ 1 ≤ d ≤ month_length y m ∧ day_number y m d = z.
Proof.
  intros Hc.
  set (k := (z + 719468) / 146097).
  set (z0 := z - 146097 * k).
  assert (Hz0 : -719468 ≤ z0 < -719468 + 146097).
  { pose proof (Z.div_mod (z + 719468) 146097 ltac:(lia)).
    pose proof (Z.mod_pos_bound (z + 719468) 146097 ltac:(lia)).
    subst z0 k. lia. }
  pose proof (civil_ok_cycle z0 Hz0) as Hok. unfold civil_ok in Hok.
  pose proof (civil_shift z0 k) as Hs.
  replace (z0 + 146097 * k) with z in Hs by (subst z0; lia).
  rewrite Hc in Hs. destruct (civil z0) as [[y0 m0] d0].
  injection Hs as -> -> ->.
  rewrite !andb_true_iff in Hok. destruct Hok as ((((H1 & H2) & H3) & H4) & H5).
  split; [lia|]. unfold month_length. rewrite leap_shift.
  fold (month_length y0 m0). split; [lia|].
  rewrite day_number_shift. subst z0. lia.
Qed.

Example inst1 : instant_of "2024-11-02T15:59:59.999Z" = Some 1730563199999.
Proof. reflexivity. Qed.
Example inst2 : instant_of "9999-99-99T99:99:99.999Z" = None.
Proof. reflexivity. Qed.
Example inst3 : instant_of "2023-02-29T00:00:00.000Z" = None.
Proof. reflexivity. Qed.
Example inst4 : instant_of "-000001-01-01T00:00:00.000Z" = Some (-62198755200000).
Proof. reflexivity. Qed.
Example inst5 : instant_of "1970-01-01T00:00:00.000Z" = Some 0.
Proof. reflexivity. Qed.

Lemma chars_app a b :
  list_ascii_of_string (a +:+ b)
  = (list_ascii_of_string a ++ list_ascii_of_string b)%list.
Proof.
  induction a as [|c a IH]; [done|].
  change (String c a +:+ b) with (String c (a +:+ b)).
  cbn [list_ascii_of_string app]. by rewrite IH.
Qed.

Lemma digit_value_digit n : digit_value (digit n) = Some (n mod 10).
Proof.
  unfold digit.
  assert (H : 0 ≤ n mod 10 < 10) by (apply Z.mod_pos_bound; lia).
  destruct (n mod 10) as [|p|p]; [done| |lia].
  do 4 (destruct p as [p|p|]; try done; try lia).
Qed.

Lemma digit_not_sign n c :
  is_digit c = false → Ascii.eqb (digit n) c = false.
Proof.
  intros Hc. destruct (Ascii.eqb (digit n) c) eqn:He; [|done].
  apply Ascii.eqb_eq in He. subst c. by rewrite is_digit_digit in Hc.
Qed.

Lemma number_snoc acc cs c :
  number acc (cs ++ [c])
  = v ← number acc cs; d ← digit_value c; Some (10 * v + d).
Proof.
  revert acc. induction cs as [|x cs IH]; intros acc; cbn.
  - by destruct (digit_value c).
  - destruct (digit_value x); [apply IH|done].
Qed.

Lemma chars_pad w n :
  length (list_ascii_of_string (pad w n)) = w
  ∧ ∀ acc, number acc (list_ascii_of_string (pad w n))
           = Some (acc * 10 ^ Z.of_nat w + n mod 10 ^ Z.of_nat w).
Proof.
  revert n. induction w as [|w IH]; intros n.
  - split; [done|]. intros acc. cbn. rewrite Z.mod_1_r. f_equal. lia.
  - destruct (IH (n / 10)) as [Hl Hn]. cbn [pad]. rewrite chars_app.
    split.
    + rewrite length_app, Hl. cbn. lia.
    + intros acc. cbn [list_ascii_of_string].
      rewrite number_snoc, Hn. cbn. rewrite digit_value_digit. cbn.
      f_equal. rewrite Nat2Z.inj_succ, Z.pow_succ_r by lia.
      rewrite (Z.rem_mul_r n 10 (10 ^ Z.of_nat w)) by lia. lia.
Qed.

Lemma digits_pad w n rest :
  0 ≤ n < 10 ^ Z.of_nat w →
  digits w (list_ascii_of_string (pad w n) ++ rest) = Some (n, rest).
Proof.
  intros Hn. destruct (chars_pad w n) as [Hl Hv]. unfold digits.
  rewrite take_app_length', drop_app_length' by done.
  rewrite Hl, Nat.eqb_refl, Hv. cbn. f_equal. f_equal.
  rewrite Z.mod_small by done. lia.
Qed.

Lemma literal_cons c cs : literal c (c :: cs) = Some cs.
Proof. cbn. by rewrite Ascii.eqb_refl. Qed.

Lemma signed_year_string y rest :
  -999999 ≤ y ≤ 999999 →
  signed_year (list_ascii_of_string (year_string y) ++ rest) = Some (y, rest).
Proof.
  intros Hy. unfold year_string.
  destruct ((0 <=? y) && (y <=? 9999)) eqn:Hsmall.
  - apply andb_true_iff in Hsmall as [?%Z.leb_le ?%Z.leb_le].
    unfold signed_year.
    destruct (list_ascii_of_string (pad 4 y) ++ rest)%list
      as [|c cs'] eqn:E.
    { apply (f_equal length) in E. rewrite length_app in E.
      destruct (chars_pad 4 y) as [Hl _]. rewrite Hl in E. cbn in E. lia. }
    pose proof E as E'.
    cbv [pad String.append list_ascii_of_string app] in E'.
    injection E' as <- _.
    rewrite !digit_not_sign by done. rewrite <- E.
    apply digits_pad. lia.
  - apply andb_false_iff in Hsmall.
    rewrite chars_app, <- app_assoc.
    destruct (y <? 0) eqn:Hneg.
    + apply Z.ltb_lt in Hneg. cbn [list_ascii_of_string app signed_year].
      change (Ascii.eqb "-" "+") with false.
      change (Ascii.eqb "-" "-") with true. cbv iota.
      rewrite digits_pad by lia. cbn.
      destruct (Z.abs y =? 0) eqn:H0; [apply Z.eqb_eq in H0; lia|].
      do 2 f_equal. lia.
    + apply Z.ltb_ge in Hneg. cbn [list_ascii_of_string app signed_year].
      change (Ascii.eqb "+" "+") with true. cbv iota.
      rewrite digits_pad by lia. do 2 f_equal.
      destruct Hsmall as [?%Z.leb_gt|?%Z.leb_gt]; lia.
Qed.

Lemma days_before_month_bound y m : 0 ≤ days_before_month y m ≤ 335.
Proof. unfold days_before_month. repeat case_match; lia. Qed.

Lemma month_length_bound y m : month_length y m ≤ 31.
Proof. unfold month_length. repeat case_match; lia. Qed.

(** The text that [toISOString] gives denotes the instant it was given. *)
Lemma instant_of_toISOString t :
  valid_date t → instant_of (toISOString t) = Some t.
Proof.
  unfold valid_date. intros Ht. unfold toISOString.
  destruct (civil (t / 86400000)) as [[y m] d] eqn:Hc.
  apply civil_spec in Hc as (Hm & Hd & Hday).
  pose proof (days_before_month_bound y m) as Hdbm.
  pose proof (month_length_bound y m) as Hml.
  set (ms := t mod 86400000).
  assert (Hms : 0 ≤ ms < 86400000) by (apply Z.mod_pos_bound; lia).
  assert (Hdays : -100000000 ≤ t / 86400000 ≤ 100000000).
  { split; [apply Z.div_le_lower_bound|apply Z.div_le_upper_bound]; lia. }
  assert (Hy : -999999 ≤ y ≤ 999999).
  { unfold day_number, days_before_year in Hday.
    pose proof (Z.div_mod (y + 3) 4 ltac:(lia)).
    pose proof (Z.mod_pos_bound (y + 3) 4 ltac:(lia)).
    pose proof (Z.div_mod (y + 99) 100 ltac:(lia)).
    pose proof (Z.mod_pos_bound (y + 99) 100 ltac:(lia)).
    pose proof (Z.div_mod (y + 399) 400 ltac:(lia)).
    pose proof (Z.mod_pos_bound (y + 399) 400 ltac:(lia)).
    lia. }
  unfold instant_of.
  rewrite !chars_app.
  rewrite signed_year_string by done. cbn [mbind option_bind].
  change (list_ascii_of_string "-") with ["-"%char].
  change (list_ascii_of_string "T") with ["T"%char].
  change (list_ascii_of_string ":") with [":"%char].
  change (list_ascii_of_string ".") with ["."%char].
  change (list_ascii_of_string "Z") with ["Z"%char].
  cbn [app].
  rewrite literal_cons. cbn [mbind option_bind].
  rewrite digits_pad by lia. cbn [mbind option_bind].
  rewrite literal_cons. cbn [mbind option_bind].
  rewrite digits_pad by lia. cbn [mbind option_bind].
  rewrite literal_cons. cbn [mbind option_bind].
  assert (Hh : 0 ≤ ms / 3600000 < 24).
  { split; [apply Z.div_pos|apply Z.div_lt_upper_bound]; lia. }
  assert (Hmi : 0 ≤ (ms / 60000) mod 60 < 60) by (apply Z.mod_pos_bound; lia).
  assert (Hs : 0 ≤ (ms / 1000) mod 60 < 60) by (apply Z.mod_pos_bound; lia).
  assert (Hmil : 0 ≤ ms mod 1000 < 1000) by (apply Z.mod_pos_bound; lia).
  rewrite digits_pad by lia. cbn [mbind option_bind].
  rewrite literal_cons. cbn [mbind option_bind].
  rewrite digits_pad by lia. cbn [mbind option_bind].
  rewrite literal_cons. cbn [mbind option_bind].
  rewrite digits_pad by lia. cbn [mbind option_bind].
  rewrite literal_cons. cbn [mbind option_bind].
  replace (list_ascii_of_string (pad 3 (ms mod 1000)) ++ ["Z"%char])%list
    with (list_ascii_of_string (pad 3 (ms mod 1000)) ++ "Z"%char :: [])%list
    by done.
  rewrite digits_pad by lia. cbn [mbind option_bind].
  rewrite literal_cons. cbn [mbind option_bind].
  rewrite bool_decide_true by done.
  repeat match goal with
         | |- context [?a <=? ?b] =>
             rewrite (proj2 (Z.leb_le a b)) by lia
         | |- context [?a <? ?b] =>
             rewrite (proj2 (Z.ltb_lt a b)) by lia
         end.
  cbn [andb]. f_equal. rewrite Hday.
  pose proof (Z.div_mod t 86400000 ltac:(lia)).
  pose proof (Z.div_mod ms 3600000 ltac:(lia)).
  pose proof (Z.mod_pos_bound ms 3600000 ltac:(lia)).
  pose proof (Z.div_mod ms 60000 ltac:(lia)).
  pose proof (Z.mod_pos_bound ms 60000 ltac:(lia)).
  pose proof (Z.div_mod ms 1000 ltac:(lia)).
  pose proof (Z.div_mod (ms / 60000) 60 ltac:(lia)).
  pose proof (Z.div_mod (ms / 1000) 60 ltac:(lia)).
  pose proof (Z.div_mod (ms / 1000) 60 ltac:(lia)).
  assert (ms / 60000 / 60 = ms / 3600000)
    by (rewrite Z.div_div by lia; done).
  assert (ms / 1000 / 60 = ms / 60000)
    by (rewrite Z.div_div by lia; done).
  fold ms in H. lia.
Qed.

(** ** What a check-in returns and stores *)

Section CheckIn.
Context {ext : Externals}.

Lemma steps_attendances w w' :
  rtc step w w' → attendances w `prefix_of` attendances w'.
Proof.
  induction 1 as [w|w w1 w' [c <-] _ IH]; [done|].
  etrans; [apply run_attendances|done].
Qed.

(** C6. A check-in answered 201 returns the record it has just stored
    together with the code and the subject of the session found and the
    record's timestamp in ISO-8601 text: the text has the shape of such
    a date-time and, the clock showing a time that a [Date] can hold,
    denotes exactly the instant of the record's timestamp.  The record
    carries the name, the roll number and the profile image of the
    caller's stored user document as they are at that moment, is dated
    [now], is appended to the attendance records and announced to the
    room of the code; no later request changes it. *)
Theorem mark_attendance_response env req w r w' :
  mark_attendance env req w = (Sent r, w') →
  status r = 201%nat →
  ∃ T session a,
    caller req w = Some T ∧ T ∈ users w
    ∧ session ∈ sessions w
    ∧ Session.sessionId session = MarkBody.sessionId (body req)
    ∧ Session.active session = true
    ∧ payload r
      = Marked true "Attendance marked" (MarkBody.sessionId (body req))
          (Session.subject session)
          (toISOString (Attendance.timestamp a)) a
    ∧ iso8601 (toISOString (Attendance.timestamp a)) = true
    ∧ (valid_date (now env) →
       instant_of (toISOString (Attendance.timestamp a))
       = Some (Attendance.timestamp a))
    ∧ Attendance.sessionId a = MarkBody.sessionId (body req)
    ∧ Attendance.studentId a = User._id T
    ∧ Attendance.studentName a = User.name T
    ∧ Attendance.rollNumber a = User.rollNumber T
    ∧ Attendance.profileImage a = User.profileImage T
    ∧ Attendance.timestamp a = now env
    ∧ attendances w' = (attendances w ++ [a])%list
    ∧ emitted w'
      = (emitted w
         ++ [mkEmitted (MarkBody.sessionId (body req)) "attendance_marked" a])%list
    ∧ ∀ w'', rtc step w' w'' →
             attendances w'' !! length (attendances w) = Some a.
Proof.
  intros Hrun Hok.
  destruct (caller req w) as [T|] eqn:Hc.
  2:{ rewrite mark_attendance_unauthenticated in Hrun by done.
      by injection Hrun as <- <-. }
  rewrite (mark_attendance_run _ _ _ _ Hc) in Hrun. cbn zeta in Hrun.
  destruct (list_find _ (sessions w)) as [[i s]|] eqn:Hs;
    [|by injection Hrun as <- <-].
  destruct (list_find _ (attendances w)) as [[j b]|];
    [by injection Hrun as <- <-|].
  injection Hrun as <- <-.
  apply list_find_Some in Hs as (Hi & [Hcode Hact] & _).
  exists T, s, (check_in env (body req) T).
  split; [done|]. split; [by eapply caller_stored|].
  split; [by eapply list_elem_of_lookup_2|].
  do 2 (split; [done|]).
  split; [by cbn; rewrite Hcode|].
  split; [apply toISOString_iso8601|].
  split; [by apply instant_of_toISOString|].
  do 8 (split; [done|]).
  intros w'' Hsteps. apply steps_attendances in Hsteps as [k ->].
  cbn [attendances set_emitted set_attendances].
  rewrite <- app_assoc. by apply list_lookup_middle.
Qed.

(** C9. Whoever the authenticated caller is, the listing answers 200
    with all the records stored under the code of the path, in store
    order: the caller is looked at for nothing but being authenticated,
    so that any two authenticated callers get the same answer. *)
Theorem session_attendance_unrestricted req w U :
  caller req w = Some U →
  session_attendance req w
  = (Sent (mkResponse 200
             (AttendanceBody
                (filter (λ a, Attendance.sessionId a
                              = Params.sessionId (body req))
                        (attendances w)))), w)
  ∧ ∀ req' U',
      caller req' w = Some U' → body req' = body req →
      session_attendance req' w = session_attendance req w.
Proof.
  intros Hc. split.
  - by rewrite session_attendance_run, Hc.
  - intros req' U' Hc' Hb.
    by rewrite !session_attendance_run, Hc, Hc', Hb.
Qed.

End CheckIn.

(** ** The theorems at work in the small school *)

Lemma attendance_history_report_witness :
  ∃ listed,
    attendance_history (ext := Demo.ext) (Demo.request "bao" ()) Demo.both_closed
    = (Sent (mkResponse 200
               (HistoryBody
                  (map (spec_entry 2 (attendances Demo.both_closed)) listed))),
       Demo.both_closed)
    ∧ listed ≡ₚ filter (λ s, Session.active s = false)
                       (sessions Demo.both_closed)
    ∧ StronglySorted later listed.
Proof.
  destruct (attendance_history_report (ext := Demo.ext)
              (Demo.request "bao" ()) Demo.both_closed Demo.bao eq_refl)
    as (listed & H1 & H2 & H3 & _).
  by exists listed.
Defined.

Lemma history_joins_by_code_witness :
  ∃ history,
    attendance_history (ext := Demo.ext) (Demo.request "bao" ()) Demo.doubled
    = (Sent (mkResponse 200 (HistoryBody history)), Demo.doubled)
    ∧ HistoryEntry.mk "AB12CD" (Some "Algebra") 2001 Present
        (mkLocation None None) ∈ history
    ∧ HistoryEntry.mk "AB12CD" (Some "Geometry") 2001 Present
        (mkLocation None None) ∈ history.
Proof.
  destruct (history_joins_by_code (ext := Demo.ext)
              (Demo.request "bao" ()) Demo.doubled Demo.bao "AB12CD"
              (Attendance.mk 202 "AB12CD" 2 (Some "Bao") (Some "S-7")
                 (mkLocation None None) 2001 (Some "Bao.png"))
              eq_refl eq_refl)
    as (history & H1 & H2 & _).
  exists history. split; [exact H1|]. split.
  - apply (H2 (Session.mk 101 "AB12CD" 1 (Some "Algebra")
                 (mkLocation None None) 1000 (Some 3000) false));
      [left|reflexivity|reflexivity].
  - apply (H2 (Session.mk 102 "AB12CD" 3 (Some "Geometry")
                 (mkLocation None None) 5000 (Some 7000) false));
      [right; left|reflexivity|reflexivity].
Defined.

Lemma mark_attendance_response_witness :
  ∃ T session a,
    caller (ext := Demo.ext)
      (Demo.request "bao" (MarkBody.mk "AB12CD" (Some 48.5%float) None))
      Demo.opened = Some T
    ∧ Session.subject session = Some "Algebra"
    ∧ payload
        (mkResponse 201
           (Marked true "Attendance marked" "AB12CD" (Some "Algebra")
              "1970-01-01T00:00:02.000Z"
              (Attendance.mk 102 "AB12CD" 2 (Some "Bao") (Some "S-7")
                 (mkLocation (Some 48.5%float) None) 2000 (Some "Bao.png"))))
      = Marked true "Attendance marked" "AB12CD" (Session.subject session)
          (toISOString (Attendance.timestamp a)) a
    ∧ instant_of "1970-01-01T00:00:02.000Z" = Some (Attendance.timestamp a)
    ∧ Attendance.studentName a = User.name T
    ∧ attendances Demo.checked_in = (attendances Demo.opened ++ [a])%list.
Proof.
  destruct (mark_attendance_response (ext := Demo.ext) Demo.env2
              (Demo.request "bao" (MarkBody.mk "AB12CD" (Some 48.5%float) None))
              Demo.opened
              (mkResponse 201
                 (Marked true "Attendance marked" "AB12CD" (Some "Algebra")
                    "1970-01-01T00:00:02.000Z"
                    (Attendance.mk 102 "AB12CD" 2 (Some "Bao") (Some "S-7")
                       (mkLocation (Some 48.5%float) None) 2000
                       (Some "Bao.png"))))
              Demo.checked_in eq_refl eq_refl)
    as (T & session & a & H1 & _ & _ & _ & _ & H2 & _ & H5 & _ & _ & H3 & _
        & _ & Ht & H4 & _).
  exists T, session, a.
  assert (Hv : valid_date (now Demo.env2)) by (unfold valid_date; cbn; lia).
  specialize (H5 Hv).
  injection H2 as Hsubject Hdate Hrecord.
  split; [done|]. split; [by rewrite <- Hsubject|].
  split; [by rewrite <- Hsubject, <- Hdate, <- Hrecord|].
  split; [by rewrite Hdate|done].
Defined.

Lemma session_attendance_unrestricted_witness :
  session_attendance (ext := Demo.ext)
    (Demo.request "bao" (Params.mk "AB12CD")) Demo.closed
  = (Sent (mkResponse 200
             (AttendanceBody
                [Attendance.mk 102 "AB12CD" 2 (Some "Bao") (Some "S-7")
                   (mkLocation (Some 48.5%float) None) 2000
                   (Some "Bao.png")])),
     Demo.closed)
  ∧ session_attendance (ext := Demo.ext)
      (Demo.request "cy" (Params.mk "AB12CD")) Demo.closed
    = session_attendance (ext := Demo.ext)
        (Demo.request "bao" (Params.mk "AB12CD")) Demo.closed.
Proof.
  destruct (session_attendance_unrestricted (ext := Demo.ext)
              (Demo.request "bao" (Params.mk "AB12CD")) Demo.closed Demo.bao
              eq_refl) as [H1 H2].
  split; [exact H1|].
  exact (H2 (Demo.request "cy" (Params.mk "AB12CD")) Demo.cy eq_refl eq_refl).
Defined.

(** * Further properties of the routes *)

(** ** The effect of one request *)

Section Effects.
Context {ext : Externals}.

Lemma register_run env req w :
  register env req w =
    let b := body req in
    match list_find (λ u, User.email u = RegisterBody.email b) (users w) with
    | Some _ => (Sent (mkResponse 400 (ErrorBody "Email already used")), w)
    | None =>
        match RegisterBody.password b with
        | None => (Sent (mkResponse 400 (ExnBody BcryptError)), w)
        | Some p =>
            let user :=
              User.mk (fresh_id env) (RegisterBody.email b)
                (Some (bcrypt_hash (salt env) p))
                (RegisterBody.role b) (RegisterBody.name b)
                (RegisterBody.college b) (RegisterBody.department b)
                (RegisterBody.class b) (RegisterBody.rollNumber b)
                (RegisterBody.address b) (RegisterBody.profileImage b)
                (RegisterBody.idCardImage b) (RegisterBody.timetableImage b)
                (now env) in
            (Sent (mkResponse 201 (UserToken user (jwt_sign (fresh_id env)))),
             set_users (users w ++ [user]) w)
        end
    end.
Proof.
  unfold register. unfold_handler. cbn zeta.
  destruct (list_find _ (users w)) as [[i u]|]; cbn; [done|].
  by destruct (RegisterBody.password (body req)).
Qed.

Lemma login_run req w :
  login req w =
    (match list_find (λ u, User.email u = LoginBody.email (body req))
                     (users w) with
     | None => Sent InvalidCredentials
     | Some (_, user) =>
         match LoginBody.password (body req), User.password user with
         | Some p, Some h =>
             if bcrypt_compare p h
             then Sent (mkResponse 200
                          (UserToken user (jwt_sign (User._id user))))
             else Sent InvalidCredentials
         | _, _ => Sent (mkResponse 400 (ExnBody BcryptError))
         end
     end, w).
Proof.
  unfold login. unfold_handler. cbn zeta.
  destruct (list_find _ (users w)) as [[i u]|]; cbn; [|done].
  destruct (LoginBody.password (body req)) as [p|]; [|done].
  destruct (User.password u) as [h|]; [|done].
  by destruct (bcrypt_compare p h).
Qed.

Lemma me_run req w :
  me req w =
    (match caller req w with
     | Some u => Sent (mkResponse 200 (UserBody (without_password u)))
     | None => Sent Unauthenticated
     end, w).
Proof.
  unfold me. destruct (caller req w) as [u|] eqn:Hc;
    [by rewrite (auth_Some _ _ _ _ Hc)|by rewrite auth_None].
Qed.

Lemma post_notes_run env req w :
  post_notes env req w =
    match caller req w with
    | Some user =>
        let note := Note.mk (fresh_id env) (User._id user)
                            (NoteReq.content (body req)) (now env) in
        (Sent (mkResponse 201 (NoteBody note)),
         set_notes (notes w ++ [note]) w)
    | None => (Sent Unauthenticated, w)
    end.
Proof.
  unfold post_notes. destruct (caller req w) as [u|] eqn:Hc;
    [by rewrite (auth_Some _ _ _ _ Hc)|by rewrite auth_None].
Qed.

Lemma get_notes_run req w :
  get_notes req w =
    (match caller req w with
     | Some user =>
         Sent (mkResponse 200
                 (NotesBody
                    (merge_sort newer
                       (filter (λ n, Note.userId n = User._id user)
                               (notes w)))))
     | None => Sent Unauthenticated
     end, w).
Proof.
  unfold get_notes. destruct (caller req w) as [u|] eqn:Hc;
    [by rewrite (auth_Some _ _ _ _ Hc)|by rewrite auth_None].
Qed.

Lemma run_effect c w : effect w (snd (run c w)).
Proof.
  destruct c as [env req|req|req|env req|req|env req|req|env req|env req|req|];
    cbn [run].
  - rewrite register_run. cbn zeta.
    destruct (list_find _ (users w)) as [[i u]|] eqn:Hf; [constructor|].
    destruct (RegisterBody.password _); [|constructor].
    by apply effect_user.
  - rewrite login_run. constructor.
  - rewrite me_run. constructor.
  - rewrite post_notes_run. destruct (caller req w) as [T|] eqn:Hc;
      [|constructor].
    apply (effect_note _ T); [by eapply caller_stored|done].
  - rewrite get_notes_run. constructor.
  - destruct (caller req w) as [T|] eqn:Hc.
    + rewrite (mark_attendance_run _ _ _ _ Hc). cbn zeta.
      destruct (list_find _ (sessions w)) as [[i s]|] eqn:Hs; [|constructor].
      destruct (list_find _ (attendances w)) as [[j b]|] eqn:Ha;
        [constructor|].
      apply list_find_Some in Hs as (Hi & HP & _).
      apply (effect_mark w T s (check_in env (body req) T));
        [by eapply caller_stored|done|by eapply list_elem_of_lookup_2
        |done|done].
    + rewrite mark_attendance_unauthenticated by done. constructor.
  - rewrite attendance_history_run. destruct (caller req w); constructor.
  - rewrite start_session_run. destruct (caller req w) as [T|] eqn:Hc;
      [|constructor].
    apply (effect_start _ T); [by eapply caller_stored|done..].
  - rewrite end_session_run. destruct (caller req w) as [T|] eqn:Hc;
      [|constructor].
    destruct (list_find _ _) as [[i s]|] eqn:Hf; [|constructor].
    apply list_find_Some in Hf as (Hi & (_ & Ht & Ha) & _).
    apply (effect_end _ T); [by eapply caller_stored|done..].
  - rewrite session_attendance_run. destruct (caller req w); constructor.
  - constructor.
Qed.

End Effects.

(** ** What every sequence of requests keeps *)

Section Invariants.
Context {ext : Externals}.

Lemma steps_keep (P : World → Prop) w w' :
  (∀ v v', effect v v' → P v → P v') → rtc step w w' → P w → P w'.
Proof.
  intros Hkeep. induction 1 as [w|w w1 w' [c <-] _ IH]; [done|].
  intros HP. apply IH. eapply Hkeep; [apply run_effect|done].
Qed.

Lemma effect_users w w' : effect w w' → users w `prefix_of` users w'.
Proof. destruct 1; cbn; try done. by apply prefix_app_r. Qed.

Lemma code_kept (l : list Session.t) i s t code :
  l !! i = Some s →
  (∃ s0, s0 ∈ l ∧ Session.sessionId s0 = code) →
  ∃ s0, s0 ∈ <[i := ended t s]> l ∧ Session.sessionId s0 = code.
Proof.
  intros Hi (s0 & [j Hj]%list_elem_of_lookup & Hcode).
  destruct (decide (j = i)) as [->|Hne].
  - exists (ended t s). split; [|by simplify_eq].
    apply list_elem_of_lookup. exists i.
    apply list_lookup_insert_eq. by eapply lookup_lt_Some.
  - exists s0. split; [|done].
    apply list_elem_of_lookup. exists j.
    by rewrite list_lookup_insert_ne.
Qed.

(** X1. No sequence of requests stores two users under one e-mail
    address: [register] looks the address up before it saves. *)
Theorem emails_stay_unique w w' :
  rtc step w w' → unique_emails (users w) → unique_emails (users w').
Proof.
  apply (steps_keep (λ v, unique_emails (users v))).
  intros v v' Heff Hu. destruct Heff as [|u Hnone| | | |]; cbn; try done.
  unfold unique_emails. rewrite map_app. apply NoDup_app.
  split; [done|]. split; [|apply NoDup_singleton].
  intros e He ->%list_elem_of_singleton.
  apply list_elem_of_fmap in He as (v0 & Heq & Hv0).
  apply list_find_None in Hnone. rewrite Forall_forall in Hnone.
  by apply (Hnone v0).
Qed.

(** X2. User documents are never changed or removed, so a request that
    the middleware resolves to a user is resolved to the same user after
    any sequence of requests. *)
Theorem callers_stay_authenticated {B} (req : Request B) w w' u :
  rtc step w w' → caller req w = Some u →
  users w `prefix_of` users w' ∧ caller req w' = Some u.
Proof.
  intros Hsteps Hc.
  assert (Hp : users w `prefix_of` users w').
  { apply (steps_keep (λ v, users w `prefix_of` users v) w w');
      [|done|done].
    intros v v' Heff Hv. etrans; [done|by apply effect_users]. }
  split; [done|]. destruct Hp as [k Hk].
  unfold caller in *. rewrite Hk.
  destruct (Authorization req); [|done].
  destruct (jwt_verify _); [|done].
  destruct (list_find _ (users w)) as [[i v]|] eqn:Hf; [|done].
  by rewrite (list_find_app_l _ _ _ _ _ Hf).
Qed.

(** X3. The events sent to the rooms mirror the attendance records: one
    [attendance_marked] event per stored record, in the same order, to
    the room named by the record's code and carrying the record. *)
Theorem events_mirror_records w w' :
  rtc step w w' →
  emitted w = map announced (attendances w) →
  emitted w' = map announced (attendances w').
Proof.
  apply (steps_keep (λ v, emitted v = map announced (attendances v))).
  intros v v' Heff Hv. destruct Heff; cbn; try done.
  by rewrite map_app, Hv.
Qed.

(** X4. References between the collections stay valid: the student of
    every record, the teacher of every session and the owner of every
    note is a stored user, and the code of every record is the code of a
    stored session. *)
Theorem references_stay_valid w w' :
  rtc step w w' → linked w → linked w'.
Proof.
  apply (steps_keep linked).
  intros v v' Heff (Ha & Hs & Hn).
  destruct Heff as [|u Hnone|T n HT Hown|T s a HT Hstu Hs0 [Hcode _] _
                   |T s HT Hown _ _|T i s t HT Hi Hown _];
    unfold linked; cbn.
  - done.
  - split; [|split].
    + intros a Hin. destruct (Ha a Hin) as [(u0 & ? & ?) ?].
      split; [|done]. exists u0. by rewrite elem_of_app; auto.
    + intros s Hin. destruct (Hs s Hin) as (u0 & ? & ?).
      exists u0. by rewrite elem_of_app; auto.
    + intros n Hin. destruct (Hn n Hin) as (u0 & ? & ?).
      exists u0. by rewrite elem_of_app; auto.
  - split; [done|]. split; [done|].
    intros n0 [Hin| ->%list_elem_of_singleton]%elem_of_app; [by apply Hn|].
    by exists T.
  - split; [|done].
    intros a0 [Hin| ->%list_elem_of_singleton]%elem_of_app; [by apply Ha|].
    split; [by exists T|by exists s].
  - split; [|split; [|done]].
    + intros a Hin. destruct (Ha a Hin) as [? (s0 & ? & ?)].
      split; [done|]. exists s0. by rewrite elem_of_app; auto.
    + intros s0 [Hin| ->%list_elem_of_singleton]%elem_of_app;
        [by apply Hs|by exists T].
  - split; [|split; [|done]].
    + intros a Hin. destruct (Ha a Hin) as [? Hex].
      split; [done|]. by apply code_kept.
    + intros s0 [j Hj]%list_elem_of_lookup.
      destruct (decide (j = i)) as [->|Hne].
      * rewrite list_lookup_insert_eq in Hj by (by eapply lookup_lt_Some).
        injection Hj as <-. by exists T.
      * rewrite list_lookup_insert_ne in Hj by done.
        apply Hs. by eapply list_elem_of_lookup_2.
Qed.

(** X5. The two fields of the state of a session agree: a stored session
    is either active without end time or inactive with one. *)
Theorem sessions_stay_consistent w w' :
  rtc step w w' →
  Forall consistent (sessions w) → Forall consistent (sessions w').
Proof.
  apply (steps_keep (λ v, Forall consistent (sessions v))).
  intros v v' Heff Hv.
  destruct Heff as [| | | |T s _ _ Hact Hend|T i s t _ Hi _ _]; cbn;
    try done.
  - apply Forall_app. split; [done|].
    apply Forall_singleton. by left.
  - apply Forall_insert; [done|]. right. split; [done|by exists t].
Qed.

(** X6. The check before the insert keeps the pairs of code and student
    unique over any sequence of requests handled one after the other. *)
Theorem attendance_pairs_stay_unique w w' :
  rtc step w w' →
  unique_marks (attendances w) → unique_marks (attendances w').
Proof. apply steps_unique_marks. Qed.

End Invariants.

(** ** The middleware *)

Section Middleware.
Context {ext : Externals}.

Lemma substring_all s : String.substring 0 (String.length s) s = s.
Proof. induction s as [|c s IH]; [done|]. cbn. by rewrite IH. Qed.

Lemma replace_bearer t : replace "Bearer " "" ("Bearer " ++ t) = t.
Proof.
  cbv [String.append]. cbn [replace String.prefix String.length Nat.sub].
  repeat (destruct (ascii_dec _ _); [|done]).
  assert (Hp : String.prefix "" t = true) by (by destruct t).
  rewrite Hp. cbv [String.append]. rewrite Nat.sub_0_r. apply substring_all.
Qed.

Lemma replace_absent pat rep s :
  contains pat s = false → replace pat rep s = s.
Proof.
  induction s as [|c s IH]; cbn [contains replace];
    intros [Hp Hc]%orb_false_iff; rewrite Hp; [done|].
  by rewrite IH.
Qed.

(** X7. The middleware verifies what is left of the header once the
    first ["Bearer "] is taken out: with the header ["Bearer " ++ t] the
    token verified is [t], whatever [t] is, and a header that is the bare
    token is let through exactly like the prefixed one when the token
    does not contain that text.  Nothing is written either way. *)
Theorem bearer_prefix_optional {B} (t : string) (b : B) w :
  authenticate (mkRequest (Some ("Bearer " ++ t)) b) w
  = (match jwt_verify t with
     | None => Thrown JsonWebTokenError
     | Some id =>
         match list_find (λ u, User._id u = id) (users w) with
         | Some (_, user) => Next user
         | None => Thrown Error
         end
     end, w)
  ∧ (contains "Bearer " t = false →
     authenticate (mkRequest (Some t) b) w
     = authenticate (mkRequest (Some ("Bearer " ++ t)) b) w).
Proof.
  split.
  - rewrite authenticate_caller. unfold caller.
    cbn [Authorization]. rewrite replace_bearer.
    destruct (jwt_verify t) as [id|]; [|done].
    by destruct (list_find _ _) as [[i u]|].
  - intros Hno. rewrite !authenticate_caller. unfold caller.
    cbn [Authorization]. by rewrite replace_bearer, replace_absent.
Qed.

(** X8. Every route except [register], [login] and [/] sits behind the
    middleware: when the request carries no header, a token that does not
    verify, or the token of a user that is not stored, the answer is 401
    "Please authenticate." and no part of the route has run. *)
Theorem guarded_routes_reject c w :
  guarded c w = Some None → run c w = (Sent Unauthenticated, w).
Proof.
  destruct c as [env req|req|req|env req|req|env req|req|env req|env req|req|];
    cbn [guarded run]; intros [= Hc]; try done.
  - by rewrite me_run, Hc.
  - by rewrite post_notes_run, Hc.
  - by rewrite get_notes_run, Hc.
  - by apply mark_attendance_unauthenticated.
  - by rewrite attendance_history_run, Hc.
  - by rewrite start_session_run, Hc.
  - by rewrite end_session_run, Hc.
  - by rewrite session_attendance_run, Hc.
Qed.

End Middleware.

(** ** Accounts *)

Section Accounts.
Context {ext : Externals}.

(** X9. [login] never writes.  It answers 200 only with a stored user
    under the e-mail of the body whose stored hash [bcrypt.compare]
    accepts for the password of the body, and the token is signed for
    that user; an unknown e-mail and a wrong password get one and the
    same answer, 400 "Invalid credentials". *)
Theorem login_checks req w :
  snd (login req w) = w
  ∧ (∀ user token,
       fst (login req w) = Sent (mkResponse 200 (UserToken user token)) →
       user ∈ users w
       ∧ User.email user = LoginBody.email (body req)
       ∧ token = jwt_sign (User._id user)
       ∧ ∃ p h, LoginBody.password (body req) = Some p
                ∧ User.password user = Some h
                ∧ bcrypt_compare p h = true)
  ∧ (Forall (λ u, User.email u ≠ LoginBody.email (body req)) (users w) →
     fst (login req w) = Sent InvalidCredentials)
  ∧ (∀ i user p h,
       list_find (λ u, User.email u = LoginBody.email (body req)) (users w)
       = Some (i, user) →
       LoginBody.password (body req) = Some p →
       User.password user = Some h →
       bcrypt_compare p h = false →
       fst (login req w) = Sent InvalidCredentials).
Proof.
  rewrite login_run. cbn [fst snd].
  split; [done|]. split; [|split].
  - intros user token.
    destruct (list_find _ _) as [[i u]|] eqn:Hf; [|done].
    apply list_find_Some in Hf as (Hi & He & _).
    destruct (LoginBody.password _) as [p|]; [|done].
    destruct (User.password u) as [h|] eqn:Hh; [|done].
    destruct (bcrypt_compare p h) eqn:Hm; [|done].
    intros [= <- <-].
    split; [by eapply list_elem_of_lookup_2|].
    do 2 (split; [done|]). by exists p, h.
  - intros Hnone. destruct (list_find _ _) as [[i u]|] eqn:Hf; [|done].
    apply list_find_Some in Hf as (Hi & He & _).
    rewrite Forall_forall in Hnone. destruct (Hnone u); [|done].
    by eapply list_elem_of_lookup_2.
  - intros i user p h -> -> -> ->. done.
Qed.

(** X10. Registering and then logging in with the same e-mail and
    password succeeds, given that [bcrypt.compare] accepts the hash that
    [bcrypt.hash] made of that password: the login answers 200 with the
    very user document that the registration stored. *)
Theorem register_then_login env req w r w' p h :
  register env req w = (Sent r, w') →
  status r = 201%nat →
  RegisterBody.password (body req) = Some p →
  bcrypt_compare p (bcrypt_hash (salt env) p) = true →
  ∃ user,
    payload r = UserToken user (jwt_sign (User._id user))
    ∧ users w' = (users w ++ [user])%list
    ∧ User.password user = Some (bcrypt_hash (salt env) p)
    ∧ login (mkRequest h (LoginBody.mk (RegisterBody.email (body req))
                                       (Some p))) w'
      = (Sent (mkResponse 200 (UserToken user (jwt_sign (User._id user)))),
         w').
Proof.
  intros Hrun Hok Hp Hm. rewrite register_run in Hrun. cbn zeta in Hrun.
  destruct (list_find _ (users w)) as [[i u]|] eqn:Hf;
    [by injection Hrun as <- <-|].
  rewrite Hp in Hrun. injection Hrun as <- <-.
  match type of Hok with context [UserToken ?u _] => exists u end.
  split; [done|]. split; [done|]. split; [done|].
  rewrite login_run. cbn [body LoginBody.email LoginBody.password users
                          set_users].
  rewrite (list_find_app_r _ _ _ Hf). cbn [list_find].
  rewrite decide_True by done. cbn. by rewrite Hm.
Qed.

(** X11. The token that a successful registration returns opens the
    guarded routes for the new user, given that the token verifies to
    the id it was signed for and that no stored user has that id:
    [/api/me] with it answers 200 with the stored document of the new
    user, the password field removed. *)
Theorem register_token_authenticates env req w r w' :
  register env req w = (Sent r, w') →
  status r = 201%nat →
  jwt_verify (jwt_sign (fresh_id env)) = Some (fresh_id env) →
  Forall (λ u, User._id u ≠ fresh_id env) (users w) →
  ∃ user token,
    payload r = UserToken user token
    ∧ user ∈ users w'
    ∧ is_Some (User.password user)
    ∧ me (mkRequest (Some ("Bearer " ++ token)) ()) w'
      = (Sent (mkResponse 200 (UserBody (without_password user))), w')
    ∧ User.password (without_password user) = None.
Proof.
  intros Hrun Hok Hjwt Hfresh. rewrite register_run in Hrun.
  cbn zeta in Hrun.
  destruct (list_find _ (users w)) as [[i u]|] eqn:Hf;
    [by injection Hrun as <- <-|].
  destruct (RegisterBody.password (body req)) as [p|];
    [|by injection Hrun as <- <-].
  injection Hrun as <- <-.
  eexists _, _. split; [done|].
  split; [cbn; apply elem_of_app; right; by left|].
  split; [by eexists|]. split; [|done].
  rewrite me_run. unfold caller. cbn [Authorization users set_users].
  rewrite replace_bearer, Hjwt.
  assert (Hnone : list_find (λ u, User._id u = fresh_id env) (users w) = None)
    by (by apply list_find_None).
  rewrite (list_find_app_r _ _ _ Hnone). cbn [list_find].
  by rewrite decide_True.
Qed.

End Accounts.

(** ** Notes *)

Section Notes.
Context {ext : Externals}.

#[local] Instance newer_total : Total newer.
Proof. intros a b. unfold newer. lia. Qed.
#[local] Instance newer_trans : Transitive newer.
Proof. intros a b c. unfold newer. lia. Qed.

(** X12. The notes listed for a caller are exactly the stored notes
    owned by the caller, each once, newest first; a note of another user
    is never in the list. *)
Theorem get_notes_own req w U :
  caller req w = Some U →
  ∃ listed,
    get_notes req w = (Sent (mkResponse 200 (NotesBody listed)), w)
    ∧ listed ≡ₚ filter (λ n, Note.userId n = User._id U) (notes w)
    ∧ StronglySorted newer listed
    ∧ ∀ n, n ∈ listed ↔ n ∈ notes w ∧ Note.userId n = User._id U.
Proof.
  intros Hc. rewrite get_notes_run, Hc. eexists. split; [done|].
  split; [apply merge_sort_Permutation|].
  split; [apply (StronglySorted_merge_sort newer)|].
  intros n. rewrite merge_sort_Permutation, list_elem_of_filter. tauto.
Qed.

Lemma post_notes_json_run env req w :
  post_notes_json env req w =
    match caller req w with
    | None => (Sent Unauthenticated, w)
    | Some user =>
        match NoteJson.typed (body req) with
        | Some b => post_notes env (mkRequest (Authorization req) b) w
        | None => (Sent ValidationFailed, w)
        end
    end.
Proof.
  unfold post_notes_json, NoteJson.typed.
  destruct (caller req w) as [user|] eqn:Hc; [|by rewrite auth_None].
  rewrite (auth_Some _ _ _ _ Hc). unfold_handler.
  destruct (cast (NoteJson.content (body req))) as [c|]; [|done].
  rewrite post_notes_run.
  by rewrite (caller_ext (mkRequest (Authorization req) (NoteReq.mk c))
                req w w eq_refl eq_refl), Hc.
Qed.

(** X13. A note posted by an authenticated caller whose content passes
    the cast to a string (or is not sent) is answered 201 and stored
    under the caller's id with that content and the time of the call,
    and the next listing for the same header contains it.  When the
    content fails the cast the answer is 400, nothing is stored and the
    listing is what it was. *)
Theorem post_then_get_notes env req req' w U :
  caller req w = Some U →
  Authorization req' = Authorization req →
  match cast (NoteJson.content (body req)) with
  | Some content =>
      ∃ note w1 listed,
        post_notes_json env req w
        = (Sent (mkResponse 201 (NoteBody note)), w1)
        ∧ Note.userId note = User._id U
        ∧ Note.content note = content
        ∧ Note.createdAt note = now env
        ∧ notes w1 = (notes w ++ [note])%list
        ∧ get_notes req' w1 = (Sent (mkResponse 200 (NotesBody listed)), w1)
        ∧ note ∈ listed
  | None =>
      post_notes_json env req w = (Sent ValidationFailed, w)
      ∧ get_notes req' (snd (post_notes_json env req w)) = get_notes req' w
  end.
Proof.
  intros Hc Hh. rewrite post_notes_json_run, Hc. unfold NoteJson.typed.
  destruct (cast (NoteJson.content (body req))) as [c|]; [|done].
  rewrite post_notes_run.
  rewrite (caller_ext (mkRequest (Authorization req) (NoteReq.mk c))
             req w w eq_refl eq_refl), Hc. cbn zeta.
  set (note := Note.mk _ _ _ _).
  set (w1 := set_notes (notes w ++ [note]) w).
  assert (Hc' : caller req' w1 = Some U)
    by (by rewrite <- Hc; apply caller_ext).
  eexists note, w1, _. split; [done|]. do 4 (split; [done|]).
  rewrite get_notes_run, Hc'.
  split; [done|].
  rewrite merge_sort_Permutation. apply list_elem_of_filter.
  split; [done|]. cbn. apply elem_of_app. right. by left.
Qed.

End Notes.

(** ** Reading routes *)

Section Reading.
Context {ext : Externals}.

(** X14. The routes that only read leave the world exactly as it was,
    whatever the request and whatever the answer: [login], [/api/me],
    the listing of notes, the history, the listing of a session's
    records and [/]. *)
Theorem reads_change_nothing w :
  (∀ req, snd (login req w) = w)
  ∧ (∀ req, snd (me req w) = w)
  ∧ (∀ req, snd (get_notes req w) = w)
  ∧ (∀ req, snd (attendance_history req w) = w)
  ∧ (∀ req, snd (session_attendance req w) = w)
  ∧ snd (root w) = w.
Proof.
  repeat split; intros.
  - by rewrite login_run.
  - by rewrite me_run.
  - by rewrite get_notes_run.
  - rewrite attendance_history_run. by destruct (caller _ _).
  - rewrite session_attendance_run. by destruct (caller _ _).
Qed.

(** X15. Every caller is shown the same sessions: the codes, subjects
    and locations listed in the history, and their order, do not depend
    on who asks (the ended sessions of all teachers, not those of the
    caller's class or department). *)
Theorem history_lists_all_sessions req req' w U U' :
  caller req w = Some U → caller req' w = Some U' →
  ∃ history history',
    attendance_history req w
    = (Sent (mkResponse 200 (HistoryBody history)), w)
    ∧ attendance_history req' w
      = (Sent (mkResponse 200 (HistoryBody history')), w)
    ∧ map session_part history = map session_part history'
    ∧ map session_part history
      ≡ₚ map (λ s, (Session.sessionId s, Session.subject s,
                    Session.location s))
             (filter (λ s, Session.active s = false) (sessions w)).
Proof.
  intros Hc Hc'. eexists _, _.
  split; [by apply attendance_history_spec|].
  split; [by apply attendance_history_spec|].
  rewrite !map_map. split; [done|].
  by rewrite merge_sort_Permutation.
Qed.

(** X16. A check-in under a code that no ended session carries changes
    nobody's history: sessions that are still active are not listed, so
    the record shows up only once the session has been ended. *)
Theorem check_in_not_listed_yet env req w r w1 req' :
  mark_attendance env req w = (Sent r, w1) →
  status r = 201%nat →
  Forall (λ s, Session.active s = false →
               Session.sessionId s ≠ MarkBody.sessionId (body req))
         (sessions w) →
  fst (attendance_history req' w1) = fst (attendance_history req' w).
Proof.
  intros Hrun Hok Hnone.
  destruct (caller req w) as [T|] eqn:Hc.
  2:{ rewrite mark_attendance_unauthenticated in Hrun by done.
      by injection Hrun as <- <-. }
  rewrite (mark_attendance_run _ _ _ _ Hc) in Hrun. cbn zeta in Hrun.
  destruct (list_find _ (sessions w)) as [[i s]|];
    [|by injection Hrun as <- <-].
  destruct (list_find _ (attendances w)) as [[j b]|];
    [by injection Hrun as <- <-|].
  injection Hrun as <- <-.
  set (a := check_in env (body req) T).
  set (w1 := set_emitted _ _).
  assert (Hcall : caller req' w1 = caller req' w) by (by apply caller_ext).
  destruct (caller req' w) as [U|] eqn:Hc'.
  - rewrite !(attendance_history_spec _ _ U) by done. cbn [fst].
    do 3 f_equal. cbn [sessions attendances w1 set_emitted set_attendances].
    apply map_ext_in. intros s0 Hin.
    apply list_elem_of_In in Hin.
    rewrite merge_sort_Permutation in Hin.
    apply list_elem_of_filter in Hin as [Hact Hin].
    rewrite Forall_forall in Hnone. specialize (Hnone s0 Hin Hact).
    unfold spec_entry, records_of. rewrite filter_app.
    rewrite (filter_cons_False _ a); [by rewrite filter_nil, app_nil_r|].
    intros [Hcode _]. by destruct Hnone.
  - by rewrite !attendance_history_run, Hcall, Hc'.
Qed.

(** X17. Check-in, then end of the session, then history: the student
    finds the ended session listed [Present], dated with the time of the
    check-in. *)
Theorem check_in_then_end_shows_present
    env1 env2 req1 req2 req3 w w1 w2 r1 r2 :
  mark_attendance env1 req1 w = (Sent r1, w1) →
  status r1 = 201%nat →
  end_session env2 req2 w1 = (Sent r2, w2) →
  status r2 = 200%nat →
  EndBody.sessionId (body req2) = MarkBody.sessionId (body req1) →
  Authorization req3 = Authorization req1 →
  ∃ s history,
    payload r2 = SessionBody s
    ∧ attendance_history req3 w2
      = (Sent (mkResponse 200 (HistoryBody history)), w2)
    ∧ HistoryEntry.mk (MarkBody.sessionId (body req1)) (Session.subject s)
        (now env1) Present (Session.location s) ∈ history.
Proof.
  intros Hrun1 Hok1 Hrun2 Hok2 Hcode Hh.
  destruct (caller req1 w) as [T|] eqn:Hc.
  2:{ rewrite mark_attendance_unauthenticated in Hrun1 by done.
      by injection Hrun1 as <- <-. }
  rewrite (mark_attendance_run _ _ _ _ Hc) in Hrun1. cbn zeta in Hrun1.
  destruct (list_find _ (sessions w)) as [[i0 s0]|];
    [|by injection Hrun1 as <- <-].
  destruct (list_find _ (attendances w)) as [[j b]|];
    [by injection Hrun1 as <- <-|].
  injection Hrun1 as <- <-.
  set (a := check_in env1 (body req1) T) in *.
  set (w1 := set_emitted _ _) in *.
  rewrite end_session_run in Hrun2.
  destruct (caller req2 w1) as [O|]; [|by injection Hrun2 as <- <-].
  destruct (list_find _ (sessions w1)) as [[i s]|] eqn:Hf;
    [|by injection Hrun2 as <- <-].
  injection Hrun2 as <- <-.
  apply list_find_Some in Hf as (Hi & (Hs & _ & _) & _).
  exists (ended (now env2) s). eexists. split; [done|].
  assert (Hc3 : caller req3
                  (set_sessions (<[i := ended (now env2) s]> (sessions w1)) w1)
                = Some T) by (by rewrite <- Hc; apply caller_ext).
  split; [by apply attendance_history_spec|].
  assert (Hlast : last (records_of (User._id T)
                          (Session.sessionId (ended (now env2) s))
                          (attendances w ++ [a])) = Some a).
  { unfold records_of. rewrite filter_app, filter_cons_True; [|split; [|done]].
    - by rewrite filter_nil, last_snoc.
    - cbn. by rewrite Hs, Hcode. }
  cbn [attendances set_sessions w1 set_emitted set_attendances].
  pose proof (spec_entry_present _ _ _ _ Hlast) as Hentry.
  cbn [Session.sessionId Session.subject Session.location ended] in Hentry.
  rewrite Hs, Hcode in Hentry. cbn in Hentry.
  change (Session.subject (ended (now env2) s)) with (Session.subject s).
  change (Session.location (ended (now env2) s)) with (Session.location s).
  rewrite <- Hentry. apply list_elem_of_fmap_2.
  rewrite merge_sort_Permutation. apply list_elem_of_filter. split; [done|].
  cbn [sessions]. apply list_elem_of_lookup. exists i.
  apply list_lookup_insert_eq. by eapply lookup_lt_Some.
Qed.

End Reading.

(** ** Session codes *)

Section Codes.
Context {ext : Externals}.

Lemma upper_hex_digit c : is_hex c = true → is_upper_hex (upper c) = true.
Proof.
  destruct c as [[] [] [] [] [] [] [] []]; vm_compute; congruence.
Qed.

(** X18. With a well-formed [uuidv4()] and a body that passes the
    cast, the code of the session that an authenticated caller starts is
    the first six characters of the identifier drawn, in upper case:
    six characters, each the upper-case form of the character of the
    identifier at its place, and so one of 0-9 and A-F. *)
Theorem session_code_is_hex env req w T b :
  uuid_format (uuid env) = true →
  caller req w = Some T →
  StartJson.typed (body req) = Some b →
  ∃ s, start_session_json env req w
       = (Sent (mkResponse 201 (SessionBody s)),
          set_sessions (sessions w ++ [s]) w)
    ∧ Session.sessionId s = toUpperCase (substring (uuid env) 0 6)
    ∧ String.length (Session.sessionId s) = 6%nat
    ∧ (∀ i, (i < 6)%nat →
            String.get i (Session.sessionId s)
            = upper <$> String.get i (uuid env))
    ∧ forallb is_upper_hex (list_ascii_of_string (Session.sessionId s)) = true.
Proof.
  intros Hu Hc Hb. rewrite start_session_json_run, Hc, Hb, start_session_run.
  rewrite (caller_ext (mkRequest (Authorization req) b) req w w
             eq_refl eq_refl), Hc.
  eexists. split; [done|]. split; [done|].
  cbn [Session.sessionId]. revert Hu.
  unfold uuid_format, substring.
  destruct (uuid env) as [|c0 [|c1 [|c2 [|c3 [|c4 [|c5 u]]]]]];
    try (cbn [uuid_from Nat.eqb orb]; rewrite ?andb_false_r; discriminate).
  cbn [uuid_from Nat.eqb orb]. rewrite !andb_true_iff.
  intros (H0 & H1 & H2 & H3 & H4 & H5 & _).
  cbn [Nat.sub String.substring toUpperCase String.length
       list_ascii_of_string forallb].
  replace (String.substring 0 0 u) with EmptyString by (by destruct u).
  split; [done|]. split.
  - intros i Hi.
    destruct i as [|[|[|[|[|[|i]]]]]]; [done..|lia].
  - by rewrite !upper_hex_digit.
Qed.

End Codes.

(** ** The further properties at work in the small school *)

Lemma school_to_closed : rtc (step (ext := Demo.ext)) Demo.school Demo.closed.
Proof.
  eapply rtc_l.
  { by exists (PostStartSession Demo.env1
                 (Demo.request "ada"
                    (StartBody.mk (Some "Algebra") (Some 48.5%float)
                                  (Some 2.25%float)))). }
  eapply rtc_l.
  { by exists (PostMarkAttendance Demo.env2
                 (Demo.request "bao"
                    (MarkBody.mk "AB12CD" (Some 48.5%float) None))). }
  eapply rtc_l; [|apply rtc_refl].
  by exists (PostEndSession Demo.env3 (Demo.request "ada" (EndBody.mk "AB12CD"))).
Qed.

Lemma school_to_enrolled :
  rtc (step (ext := Demo.ext)) Demo.school Demo.enrolled.
Proof.
  eapply rtc_r; [apply school_to_closed|].
  by exists (PostRegister Demo.env9 (mkRequest None Demo.dee_body)).
Qed.

Lemma emails_stay_unique_witness : unique_emails (users Demo.enrolled).
Proof.
  apply (emails_stay_unique (ext := Demo.ext) Demo.school Demo.enrolled
           school_to_enrolled).
  apply (bool_decide_unpack _). vm_compute. exact I.
Defined.

Lemma callers_stay_authenticated_witness :
  caller (ext := Demo.ext) (Demo.request "bao" ()) Demo.enrolled
  = Some Demo.bao.
Proof.
  exact (proj2 (callers_stay_authenticated (ext := Demo.ext)
                  (Demo.request "bao" ()) Demo.school Demo.enrolled Demo.bao
                  school_to_enrolled eq_refl)).
Defined.

Lemma events_mirror_records_witness :
  emitted Demo.closed = map announced (attendances Demo.closed).
Proof.
  exact (events_mirror_records (ext := Demo.ext) Demo.school Demo.closed
           school_to_closed eq_refl).
Defined.

Lemma references_stay_valid_witness : linked Demo.closed.
Proof.
  apply (references_stay_valid (ext := Demo.ext) Demo.school Demo.closed
           school_to_closed).
  split; [|split]; by intros ? ?%elem_of_nil.
Defined.

Lemma sessions_stay_consistent_witness :
  Forall consistent (sessions Demo.closed).
Proof.
  apply (sessions_stay_consistent (ext := Demo.ext) Demo.school Demo.closed
           school_to_closed).
  constructor.
Defined.

Lemma attendance_pairs_stay_unique_witness :
  unique_marks (attendances Demo.closed).
Proof.
  apply (attendance_pairs_stay_unique (ext := Demo.ext) Demo.school
           Demo.closed school_to_closed).
  intros code student. cbn. lia.
Defined.

Lemma guarded_routes_reject_witness :
  run (ext := Demo.ext)
    (PostStartSession Demo.env4
       (Demo.request "gone" (StartBody.mk (Some "Physics") None None)))
    Demo.closed
  = (Sent Unauthenticated, Demo.closed).
Proof.
  exact (guarded_routes_reject (ext := Demo.ext)
           (PostStartSession Demo.env4
              (Demo.request "gone" (StartBody.mk (Some "Physics") None None)))
           Demo.closed eq_refl).
Defined.

Lemma register_then_login_witness :
  ∃ user,
    payload (mkResponse 201 (UserToken Demo.dee "gone"))
    = UserToken user (jwt_sign (Externals := Demo.ext) (User._id user))
    ∧ users Demo.enrolled = (users Demo.closed ++ [user])%list
    ∧ User.password user = Some "s$pw"
    ∧ login (ext := Demo.ext)
        (mkRequest None (LoginBody.mk "dee@school.example" (Some "pw")))
        Demo.enrolled
      = (Sent (mkResponse 200
                 (UserToken user
                    (jwt_sign (Externals := Demo.ext) (User._id user)))),
         Demo.enrolled).
Proof.
  exact (register_then_login (ext := Demo.ext) Demo.env9
           (mkRequest None Demo.dee_body) Demo.closed
           (mkResponse 201 (UserToken Demo.dee "gone")) Demo.enrolled
           "pw" None eq_refl eq_refl eq_refl eq_refl).
Defined.

Lemma register_token_authenticates_witness :
  me (ext := Demo.ext) (mkRequest (Some "Bearer gone") ()) Demo.enrolled
  = (Sent (mkResponse 200 (UserBody (without_password Demo.dee))),
     Demo.enrolled).
Proof.
  destruct (register_token_authenticates (ext := Demo.ext) Demo.env9
              (mkRequest None Demo.dee_body) Demo.closed
              (mkResponse 201 (UserToken Demo.dee "gone")) Demo.enrolled
              eq_refl eq_refl eq_refl)
    as (user & token & Hp & _ & _ & Hme & _).
  - repeat constructor; discriminate.
  - by injection Hp as <- <-.
Defined.

Lemma get_notes_own_witness :
  ∃ listed,
    get_notes (ext := Demo.ext) (Demo.request "bao" ()) Demo.noted
    = (Sent (mkResponse 200 (NotesBody listed)), Demo.noted)
    ∧ listed ≡ₚ filter (λ n, Note.userId n = 2%N) (notes Demo.noted)
    ∧ StronglySorted newer listed
    ∧ ∀ n, n ∈ listed ↔ n ∈ notes Demo.noted ∧ Note.userId n = 2%N.
Proof.
  exact (get_notes_own (ext := Demo.ext) (Demo.request "bao" ()) Demo.noted
           Demo.bao eq_refl).
Defined.

Lemma post_then_get_notes_witness :
  ∃ note w1 listed,
    post_notes_json (ext := Demo.ext) Demo.env4
      (Demo.request "bao" (NoteJson.mk (Given "bring compass"))) Demo.closed
    = (Sent (mkResponse 201 (NoteBody note)), w1)
    ∧ Note.userId note = 2%N
    ∧ Note.content note = Some "bring compass"
    ∧ Note.createdAt note = 4000
    ∧ notes w1 = (notes Demo.closed ++ [note])%list
    ∧ get_notes (ext := Demo.ext) (Demo.request "bao" ()) w1
      = (Sent (mkResponse 200 (NotesBody listed)), w1)
    ∧ note ∈ listed.
Proof.
  exact (post_then_get_notes (ext := Demo.ext) Demo.env4
           (Demo.request "bao" (NoteJson.mk (Given "bring compass")))
           (Demo.request "bao" ()) Demo.closed Demo.bao eq_refl eq_refl).
Defined.

Lemma history_lists_all_sessions_witness :
  ∃ history history',
    attendance_history (ext := Demo.ext) (Demo.request "bao" ())
      Demo.both_closed
    = (Sent (mkResponse 200 (HistoryBody history)), Demo.both_closed)
    ∧ attendance_history (ext := Demo.ext) (Demo.request "cy" ())
        Demo.both_closed
      = (Sent (mkResponse 200 (HistoryBody history')), Demo.both_closed)
    ∧ map session_part history = map session_part history'.
Proof.
  destruct (history_lists_all_sessions (ext := Demo.ext)
              (Demo.request "bao" ()) (Demo.request "cy" ()) Demo.both_closed
              Demo.bao Demo.cy eq_refl eq_refl)
    as (history & history' & H1 & H2 & H3 & _).
  by exists history, history'.
Defined.

Lemma check_in_not_listed_yet_witness :
  fst (attendance_history (ext := Demo.ext) (Demo.request "bao" ())
         Demo.checked_in)
  = fst (attendance_history (ext := Demo.ext) (Demo.request "bao" ())
           Demo.opened).
Proof.
  apply (check_in_not_listed_yet (ext := Demo.ext) Demo.env2
           (Demo.request "bao" (MarkBody.mk "AB12CD" (Some 48.5%float) None))
           Demo.opened
           (mkResponse 201
              (Marked true "Attendance marked" "AB12CD" (Some "Algebra")
                 "1970-01-01T00:00:02.000Z" Demo.bao_record))
           Demo.checked_in (Demo.request "bao" ()) eq_refl eq_refl).
  repeat constructor. discriminate.
Defined.

Lemma check_in_then_end_shows_present_witness :
  ∃ s history,
    payload (mkResponse 200 (SessionBody Demo.algebra_ended)) = SessionBody s
    ∧ attendance_history (ext := Demo.ext) (Demo.request "bao" ()) Demo.closed
      = (Sent (mkResponse 200 (HistoryBody history)), Demo.closed)
    ∧ HistoryEntry.mk "AB12CD" (Session.subject s) 2000 Present
        (Session.location s) ∈ history.
Proof.
  exact (check_in_then_end_shows_present (ext := Demo.ext)
           Demo.env2 Demo.env3
           (Demo.request "bao" (MarkBody.mk "AB12CD" (Some 48.5%float) None))
           (Demo.request "ada" (EndBody.mk "AB12CD"))
           (Demo.request "bao" ())
           Demo.opened Demo.checked_in Demo.closed
           (mkResponse 201
              (Marked true "Attendance marked" "AB12CD" (Some "Algebra")
                 "1970-01-01T00:00:02.000Z" Demo.bao_record))
           (mkResponse 200 (SessionBody Demo.algebra_ended))
           eq_refl eq_refl eq_refl eq_refl eq_refl eq_refl).
Defined.

Lemma session_code_is_hex_witness :
  ∃ s, start_session_json (ext := Demo.ext) Demo.env1
         (Demo.request "ada" Demo.geometry_json) Demo.school
       = (Sent (mkResponse 201 (SessionBody s)),
          set_sessions (sessions Demo.school ++ [s]) Demo.school)
    ∧ Session.sessionId s = "AB12CD"
    ∧ String.length (Session.sessionId s) = 6%nat
    ∧ (∀ i, (i < 6)%nat →
            String.get i (Session.sessionId s)
            = upper <$> String.get i "ab12cd34-7b2d-4e5f-8a6b-0123456789ab")
    ∧ forallb is_upper_hex (list_ascii_of_string (Session.sessionId s)) = true.
Proof.
  exact (session_code_is_hex (ext := Demo.ext) Demo.env1
           (Demo.request "ada" Demo.geometry_json) Demo.school Demo.ada
           (StartBody.mk (Some "Geometry") None None)
           eq_refl eq_refl eq_refl).
Defined.

(** ** Refusals *)

Section Refusals.
Context {ext : Externals}.

(** X19. A student who holds a record under a code is never checked in
    under that code again, in whatever session the code turns up: the
    answer is 400 "Already marked" when an active session carries the
    code and 404 "Session not active" otherwise, and nothing is
    written. *)
Theorem old_record_blocks_check_in env req w T a :
  caller req w = Some T →
  a ∈ attendances w →
  marked_by (MarkBody.sessionId (body req)) (User._id T) a →
  mark_attendance env req w
  = (Sent (if decide (Exists (active_with (MarkBody.sessionId (body req)))
                             (sessions w))
           then AlreadyMarked else SessionNotActive), w).
Proof.
  intros Hc Ha Hm. rewrite (mark_attendance_run _ _ _ _ Hc). cbn zeta.
  destruct (list_find _ (sessions w)) as [[i s]|] eqn:Hs.
  - apply list_find_Some in Hs as (Hi & HP & _).
    rewrite decide_True by (apply Exists_exists; exists s; split;
                            [by eapply list_elem_of_lookup_2|done]).
    destruct (list_find _ (attendances w)) as [[j b]|] eqn:Hb; [done|].
    apply list_find_None in Hb. rewrite Forall_forall in Hb.
    by destruct (Hb a Ha).
  - apply list_find_None in Hs. rewrite Forall_forall in Hs.
    rewrite decide_False; [done|]. intros (s & Hin & HP)%Exists_exists.
    by apply (Hs s Hin).
Qed.

(** X20. [register] stores nothing when it refuses: an e-mail that a
    stored user already has is answered 400 "Email already used", and a
    body without password, the e-mail being free, is answered 400 with
    the error that [bcrypt.hash] throws. *)
Theorem register_refuses env req w :
  ((∃ u, u ∈ users w ∧ User.email u = RegisterBody.email (body req)) →
   register env req w
   = (Sent (mkResponse 400 (ErrorBody "Email already used")), w))
  ∧ (Forall (λ u, User.email u ≠ RegisterBody.email (body req)) (users w) →
     RegisterBody.password (body req) = None →
     register env req w = (Sent (mkResponse 400 (ExnBody BcryptError)), w)).
Proof.
  rewrite register_run. cbn zeta. split.
  - intros (u & Hin & He).
    destruct (list_find _ (users w)) as [[i v]|] eqn:Hf; [done|].
    apply list_find_None in Hf. rewrite Forall_forall in Hf.
    by destruct (Hf u Hin).
  - intros Hfree ->.
    destruct (list_find _ (users w)) as [[i v]|] eqn:Hf; [|done].
    apply list_find_Some in Hf as (Hi & He & _).
    rewrite Forall_forall in Hfree. destruct (Hfree v); [|done].
    by eapply list_elem_of_lookup_2.
Qed.

End Refusals.

Lemma old_record_blocks_check_in_witness :
  mark_attendance (ext := Demo.ext) Demo.env5
    (Demo.request "bao" (MarkBody.mk "AB12CD" None None)) Demo.reopened
  = (Sent AlreadyMarked, Demo.reopened).
Proof.
  exact (old_record_blocks_check_in (ext := Demo.ext) Demo.env5
           (Demo.request "bao" (MarkBody.mk "AB12CD" None None))
           Demo.reopened Demo.bao Demo.bao_record eq_refl
           (list_elem_of_here _ _) (conj eq_refl eq_refl)).
Defined.

(** ** Bodies that fail the cast *)

Section Casts.
Context {ext : Externals}.

Lemma mark_attendance_json_run env req w user :
  caller req w = Some user →
  mark_attendance_json env req w =
    let code := MarkJson.sessionId (body req) in
    match list_find (active_with code) (sessions w) with
    | None => (Sent SessionNotActive, w)
    | Some _ =>
        match list_find (marked_by code (User._id user)) (attendances w) with
        | Some _ => (Sent AlreadyMarked, w)
        | None =>
            match MarkJson.typed (body req) with
            | Some b =>
                mark_attendance env (mkRequest (Authorization req) b) w
            | None => (Sent ValidationFailed, w)
            end
        end
    end.
Proof.
  intros Hc. unfold mark_attendance_json, MarkJson.typed.
  rewrite (auth_Some _ _ _ _ Hc). unfold_handler. cbn zeta.
  change (list_find _ (sessions w))
    with (list_find (active_with (MarkJson.sessionId (body req))) (sessions w)).
  destruct (list_find (active_with _) _) as [[i s]|] eqn:Hs; cbn; [|done].
  change (list_find _ (attendances w))
    with (list_find (marked_by (MarkJson.sessionId (body req))
                               (User._id user)) (attendances w)).
  destruct (list_find (marked_by _ _) _) as [[j a]|] eqn:Ha; [done|].
  destruct (cast (MarkJson.latitude (body req))) as [la|],
           (cast (MarkJson.longitude (body req))) as [lo|]; try done.
  assert (Hc' : caller (mkRequest (Authorization req)
                          (MarkBody.mk (MarkJson.sessionId (body req)) la lo))
                  w = Some user) by (by rewrite <- Hc; apply caller_ext).
  rewrite (mark_attendance_run _ _ _ _ Hc'). cbn zeta.
  cbn [body MarkBody.sessionId]. by rewrite Hs, Ha.
Qed.

(** X21. A check-in whose latitude or longitude fails the cast stores
    nothing and announces nothing, and the failure is reported only
    after the two look-ups: without an active session under the code the
    answer is 404 "Session not active", with a record of the student
    under the code it is 400 "Already marked", and otherwise it is the
    400 of the rejected save. *)
Theorem cast_failure_comes_last env req w T :
  caller req w = Some T →
  MarkJson.typed (body req) = None →
  mark_attendance_json env req w
  = (Sent (if decide (Exists (active_with (MarkJson.sessionId (body req)))
                             (sessions w))
           then if decide (Exists (marked_by (MarkJson.sessionId (body req))
                                             (User._id T))
                                  (attendances w))
                then AlreadyMarked else ValidationFailed
           else SessionNotActive), w).
Proof.
  intros Hc Hb. rewrite (mark_attendance_json_run _ _ _ _ Hc), Hb. cbn zeta.
  destruct (list_find _ (sessions w)) as [[i s]|] eqn:Hs.
  - apply list_find_Some in Hs as (Hi & HP & _).
    rewrite decide_True by (apply Exists_exists; exists s; split;
                            [by eapply list_elem_of_lookup_2|done]).
    destruct (list_find _ (attendances w)) as [[j a]|] eqn:Ha.
    + apply list_find_Some in Ha as (Hj & HQ & _).
      by rewrite decide_True by (apply Exists_exists; exists a; split;
                                 [by eapply list_elem_of_lookup_2|done]).
    + apply list_find_None in Ha. rewrite Forall_forall in Ha.
      rewrite decide_False; [done|]. intros (a & Hin & HQ)%Exists_exists.
      by apply (Ha a Hin).
  - apply list_find_None in Hs. rewrite Forall_forall in Hs.
    rewrite decide_False; [done|]. intros (s & Hin & HP)%Exists_exists.
    by apply (Hs s Hin).
Qed.


End Casts.

Lemma cast_failure_comes_last_witness :
  mark_attendance_json (ext := Demo.ext) Demo.env2
    (Demo.request "bao"
       (MarkJson.mk "AB12CD" (Uncastable (JString "abc")) Omitted))
    Demo.opened
  = (Sent ValidationFailed, Demo.opened)
  ∧ mark_attendance_json (ext := Demo.ext) Demo.env4
      (Demo.request "bao"
         (MarkJson.mk "AB12CD" (Uncastable (JString "abc")) Omitted))
      Demo.checked_in
    = (Sent AlreadyMarked, Demo.checked_in).
Proof.
  split.
  - exact (cast_failure_comes_last (ext := Demo.ext) Demo.env2
             (Demo.request "bao"
                (MarkJson.mk "AB12CD" (Uncastable (JString "abc")) Omitted))
             Demo.opened Demo.bao eq_refl eq_refl).
  - exact (cast_failure_comes_last (ext := Demo.ext) Demo.env4
             (Demo.request "bao"
                (MarkJson.mk "AB12CD" (Uncastable (JString "abc")) Omitted))
             Demo.checked_in Demo.bao eq_refl eq_refl).
Defined.
